(** * Pagination: page arithmetic, state reconciliation and page-range
      construction

    Shallow embedding of [src/NewPagination.tsx], the function component
    [Pagination].  The component is a closure over its [props] and over the
    values its hooks hold; here every local of the component body is a
    function of [(props, st)] with the name it has in the source.

    Numbers.  The props of the component are JavaScript numbers that hold
    integers; they are modelled by [Z].  [Math.floor (a / b)] is [a / b] of
    [Z] (floor division) for every [b <> 0].  For [b = 0] JavaScript yields
    an infinity or NaN, which [Z] does not have: a statement below that
    depends on the value of a page count assumes that the page size it is
    computed from is not [0]. *)

From Stdlib Require Import ZArith List Bool String Lia Sorted.
Import ListNotations.
Local Open Scope Z_scope.

(** ** React values the component handles *)

(** A node handed to or returned by [itemRender]: [null], or some element
    (the icon button, a caller's icon).  Only its truthiness is used. *)
Inductive ReactNode :=
| RNull
| RElement (label : string).

Definition truthy (n : ReactNode) : bool :=
  match n with RNull => false | RElement _ => true end.

(** The second argument of [itemRender]. *)
Inductive ItemType := page_item | prev_item | next_item | jump_prev | jump_next.

(** What [pagerList] holds: [<Pager page active className/>], the two jump
    [<li>]s ([key="prev"], [onClick={jumpPrevHandle}] and [key="next"],
    [onClick={jumpNextHandle}]), or [null] ([jumpPrev]/[jumpNext] stay
    [null] when the jumpers are switched off).  A [className] is the list
    of its class names. *)
Inductive PagerItem :=
| Null
| Pager (page : Z) (active : bool) (className : list string)
| JumpPrevLi (className : list string)
| JumpNextLi (className : list string).

(** The page markers a [pagerList] shows, left to right: an item without
    its styling.  [null] shows nothing. *)
Inductive PageMarker :=
| Number (page : Z)
| JumpPrev
| JumpNext.

Definition marker (e : PagerItem) : list PageMarker :=
  match e with
  | Null => []
  | Pager p _ _ => [Number p]
  | JumpPrevLi _ => [JumpPrev]
  | JumpNextLi _ => [JumpNext]
  end.

Definition markers (l : list PagerItem) : list PageMarker :=
  flat_map marker l.

(** The page numbers among the items of a [pagerList]. *)
Definition pageNumber (e : PagerItem) : list Z :=
  match e with
  | Pager p _ _ => [p]
  | _ => []
  end.

Definition pageNumbers (l : list PagerItem) : list Z :=
  flat_map pageNumber l.

(** A callback supplied by the host application. *)
Definition Callback := nat.

(** ** Props *)

Module Props.
(** [PaginationProps]; an optional prop that was not passed is [None]
    (a prop passed as [undefined] is not told apart from one not passed). *)
Record t := {
    prefixCls : option string;
    current : option Z;
    defaultCurrent : option Z;
    total : option Z;
    pageSize : option Z;
    defaultPageSize : option Z;
    onChange : option Callback;
    hideOnSinglePage : bool;
    showPrevNextJumpers : option bool;
    showQuickJumper : bool;
    showLessItems : bool;
    onShowSizeChange : option Callback;
    totalBoundaryShowSizeChanger : option Z;
    disabled : bool;
    simple : bool;
    showSizeChanger : option bool;
    itemRender : option (Z -> ItemType -> ReactNode -> ReactNode);
    jumpPrevIcon : ReactNode;
    jumpNextIcon : ReactNode;
    prevIcon : ReactNode;
    nextIcon : ReactNode
  }.

(** [<Pagination />]: nothing passed. *)
Definition empty : t :=
    {| prefixCls := None; current := None; defaultCurrent := None;
       total := None; pageSize := None; defaultPageSize := None;
       onChange := None; hideOnSinglePage := false;
       showPrevNextJumpers := None; showQuickJumper := false;
       showLessItems := false; onShowSizeChange := None;
       totalBoundaryShowSizeChanger := None; disabled := false;
       simple := false; showSizeChanger := None; itemRender := None;
       jumpPrevIcon := RNull; jumpNextIcon := RNull;
       prevIcon := RNull; nextIcon := RNull |}.
End Props.

Definition orDefault {A} (d : A) (o : option A) : A :=
  match o with Some a => a | None => d end.

(** ** Module-level helpers of the source *)

Definition defaultItemRender (_ : Z) (_ : ItemType) (element : ReactNode) :
  ReactNode := element.

(** [isInteger]: a number is an integer when it is finite and equal to its
    floor.  Every [Z] is. *)
Definition isInteger (v : Z) : bool := true.

(** [calculatePage (p, pageSize, total)]. *)
Definition calculatePage (p : option Z) (pageSize total : Z) : Z :=
  let _pageSize := match p with None => pageSize | Some p' => p' end in
  (total - 1) / _pageSize + 1.

(** ** Hooks *)

(** What the hooks of one mounted component hold between renders: the
    inner values of the two [useMergedState] cells and the [useState] cell
    of the quick-jump input. *)
Record HookState := {
  innerPageSize : Z;
  innerCurrent : Z;
  internalInputVal : Z
}.

(** [useMergedState] (rc-util): the cell starts from the controlled value,
    else the default value; each render it yields the controlled value when
    there is one, else the inner value, passed through [postState]. *)
Definition useMergedStateInit (value defaultValue : option Z)
  (defaultStateValue : Z) : Z :=
  match value with
  | Some v => v
  | None => orDefault defaultStateValue defaultValue
  end.

Definition mergedValue (value : option Z) (inner : Z) : Z :=
  match value with Some v => v | None => inner end.

Definition useMergedState (value : option Z) (inner : Z)
  (postState : Z -> Z) : Z :=
  postState (mergedValue value inner).

(** ** Effects of the event handlers

    A handler runs inside one render: it reads the values of that render and
    asks React for state updates and calls the host's callbacks.  A handler
    is modelled by the list of what it asks for, in program order. *)
Inductive Effect :=
| SetPageSize (v : Z)
| SetCurrent (v : Z)
| SetInternalInputVal (v : Z)
| CallOnChange (page size : Z)
| CallOnShowSizeChange (page size : Z).

(** A call received by the host application. *)
Inductive Notification :=
| OnChange (page size : Z)
| OnShowSizeChange (page size : Z).

(** ** Array operations on [pagerList] *)

Definition unshift {A} (x : A) (l : list A) : list A := x :: l.
Definition push {A} (l : list A) (x : A) : list A := l ++ [x].

(** [React.cloneElement (el, { className: classNames (cls, el.props.className) })];
    reading [.props] of [undefined] (an empty [pagerList]) or of [null]
    throws: [None]. *)
Definition cloneElement (el : option PagerItem) (cls : string) :
  option PagerItem :=
  match el with
  | Some (Pager p a c) => Some (Pager p a (cls :: c))
  | Some (JumpPrevLi c) => Some (JumpPrevLi (cls :: c))
  | Some (JumpNextLi c) => Some (JumpNextLi (cls :: c))
  | Some Null | None => None
  end.

(** [pagerList[0] = React.cloneElement (pagerList[0], ...)]. *)
Definition tagFirst (cls : string) (l : list PagerItem) :
  option (list PagerItem) :=
  match cloneElement (hd_error l) cls with
  | Some el => Some (el :: tl l)
  | None => None
  end.

(** [pagerList[pagerList.length - 1] = React.cloneElement (pagerList.at (-1), ...)]. *)
Definition tagLast (cls : string) (l : list PagerItem) :
  option (list PagerItem) :=
  match cloneElement (hd_error (rev l)) cls with
  | Some el => Some (removelast l ++ [el])
  | None => None
  end.

(** [for (let i = lo; i <= hi; i += 1) pagerList.push (<Pager key={i} page={i}
    active={current === i} />)], as the list of what it pushes. *)
Definition pagers (current lo hi : Z) : list PagerItem :=
  map (fun k => let i := lo + Z.of_nat k in Pager i (current =? i) [])
      (seq 0 (Z.to_nat (hi - lo + 1))).

(** The block [// Normal] of the component: it fills [pagerList] from
    [current], [allPages], [pageBufferSize] and the two jump elements built
    before it.  [None]: the block throws. *)
Definition normalPagerList (prefixCls : string) (pageBufferSize : Z)
  (jumpPrev jumpNext : PagerItem) (current allPages : Z) :
  option (list PagerItem) :=
  if allPages <=? 3 + pageBufferSize * 2 then
    let noPager :=
      if allPages =? 0
      then [Pager 1 false [(prefixCls ++ "-item-disabled")%string]]
      else [] in
    Some (noPager ++ pagers current 1 allPages)
  else
    let left := Z.max 1 (current - pageBufferSize) in
    let right := Z.min (current + pageBufferSize) allPages in
    let right :=
      if current - 1 <=? pageBufferSize then 1 + pageBufferSize * 2
      else right in
    let left :=
      if allPages - current <=? pageBufferSize
      then allPages - pageBufferSize * 2 else left in
    let pagerList := pagers current left right in
    match
      (if (current - 1 >=? pageBufferSize * 2) && negb (current =? 1 + 2)
       then option_map (unshift jumpPrev)
              (tagFirst (prefixCls ++ "-item-after-jump-prev") pagerList)
       else Some pagerList)
    with
    | None => None
    | Some pagerList =>
      match
        (if (allPages - current >=? pageBufferSize * 2)
            && negb (current =? allPages - 2)
         then option_map (fun l => push l jumpNext)
                (tagLast (prefixCls ++ "-item-before-jump-next") pagerList)
         else Some pagerList)
      with
      | None => None
      | Some pagerList =>
        let pagerList :=
          if negb (left =? 1) then unshift (Pager 1 false []) pagerList
          else pagerList in
        let pagerList :=
          if negb (right =? allPages)
          then push pagerList (Pager allPages false [])
          else pagerList in
        Some pagerList
      end
    end.

(** [warning (valid, message)] (rc-util): the message is logged, once,
    when [valid] is false; nothing is thrown. *)
Definition warning (valid : bool) (message : string) : list string :=
  if valid then [] else [message].

(** ** What a render returns *)

(** The [<li>] around the previous or the next button. *)
Record NavItem := {
  ariaDisabled : bool;
  tabIndex : option Z
}.

(** [simple ? simplePager : pagerList]. *)
Inductive PagerBody :=
| SimplePager (inputValue : Z) (inputDisabled : bool) (pages : Z)
| PagerList (items : list PagerItem).

(** The [<ul>]: [prev], the pagers, [next], and the two handlers handed to
    [Options] ([changeSize] and [quickGo] are [null] when their flag is
    off). *)
Record Rendered := {
  prevLi : option NavItem;
  body : PagerBody;
  nextLi : option NavItem;
  changeSize : bool;
  quickGo : bool
}.

Inductive Outcome :=
| ReturnsNull
| Throws
| Renders (ul : Rendered).

(** ** The component body: destructured props *)

Section Component.
Variable props : Props.t.

Definition prefixCls : string :=
    orDefault "rc-pagination"%string (Props.prefixCls props).
Definition currentProp : option Z := Props.current props.
Definition defaultCurrent : Z := orDefault 1 (Props.defaultCurrent props).
Definition total : Z := orDefault 0 (Props.total props).
Definition pageSizeProp : option Z := Props.pageSize props.
Definition defaultPageSize : Z := orDefault 10 (Props.defaultPageSize props).
Definition showPrevNextJumpers : bool :=
    orDefault true (Props.showPrevNextJumpers props).
Definition totalBoundaryShowSizeChanger : Z :=
    orDefault 50 (Props.totalBoundaryShowSizeChanger props).
Definition itemRender : Z -> ItemType -> ReactNode -> ReactNode :=
    orDefault defaultItemRender (Props.itemRender props).
Definition hideOnSinglePage : bool := Props.hideOnSinglePage props.
Definition showQuickJumper : bool := Props.showQuickJumper props.
Definition showLessItems : bool := Props.showLessItems props.
Definition disabled : bool := Props.disabled props.
Definition simple : bool := Props.simple props.
Definition showSizeChangerProp : option bool := Props.showSizeChanger props.

(** [onChange = noop] by default; [hasOnChange] is [onChange !== noop]. *)
Definition hasOnChange : bool :=
    match Props.onChange props with Some _ => true | None => false end.
(** ['current' in props]. *)
Definition hasCurrent : bool :=
    match Props.current props with Some _ => true | None => false end.

(** The state of the hooks when the component mounts. *)
Definition mount : HookState :=
    let ps := useMergedStateInit pageSizeProp (Some defaultPageSize) 10 in
    let c := useMergedStateInit currentProp (Some defaultCurrent) 1 in
    {| innerPageSize := ps;
       innerCurrent := c;
       internalInputVal := Z.min c (calculatePage (Some ps) ps total) |}.

Variable st : HookState.

Definition pageSize : Z :=
    useMergedState pageSizeProp (innerPageSize st) (fun v => v).

(** [postState: (c) => Math.min(c, calculatePage(pageSize, undefined, total))];
      the second argument is not read since the first is defined. *)
Definition postState (c : Z) : Z :=
    Z.min c (calculatePage (Some pageSize) pageSize total).

Definition current : Z :=
    useMergedState currentProp (innerCurrent st) postState.

Definition jumpPrevPage : Z :=
    Z.max 1 (current - (if showLessItems then 3 else 5)).
Definition jumpNextPage : Z :=
    Z.min (calculatePage None pageSize total)
          (current + (if showLessItems then 3 else 5)).

Definition allPages : Z := calculatePage None pageSize total.

Definition isValid (page : Z) : bool :=
    isInteger page && negb (page =? current) && isInteger total && (total >? 0).

Definition shouldDisplayQuickJumper : bool :=
    if total >? pageSize then showQuickJumper else false.

Definition hasPrev : bool := current >? 1.
Definition hasNext : bool := current <? calculatePage None pageSize total.
Definition showSizeChanger : bool :=
    match showSizeChangerProp with
    | Some b => b
    | None => total >? totalBoundaryShowSizeChanger
    end.

(** *** Handlers *)

Definition changePageSize (size : Z) : list Effect :=
  let newCurrent := calculatePage (Some size) pageSize total in
  let nextCurrent :=
    if (current >? newCurrent) && negb (newCurrent =? 0)
    then newCurrent else current in
  [ SetPageSize size;
    CallOnChange nextCurrent size;
    SetInternalInputVal nextCurrent;
    CallOnShowSizeChange nextCurrent size ].

(** [handleChange (page)]: its effects and the page it returns. *)
Definition handleChange (page : Z) : list Effect * Z :=
  if isValid page && negb disabled then
    let currentPage := calculatePage None pageSize total in
    let newPage :=
      if page >? currentPage then currentPage
      else if page <? 1 then 1 else page in
    ((if negb (newPage =? internalInputVal st)
      then [SetInternalInputVal newPage] else [])
     ++ [SetCurrent newPage],
     newPage)
  else ([], current).

Definition prevHandle : list Effect :=
  if hasPrev then fst (handleChange (current - 1)) else [].

Definition nextHandle : list Effect :=
  if hasNext then fst (handleChange (current + 1)) else [].

Definition jumpPrevHandle : list Effect := fst (handleChange jumpPrevPage).

Definition jumpNextHandle : list Effect := fst (handleChange jumpNextPage).

(** One effect, applied to the hook state and to the log of the host's
    callbacks.  The setter of the [current] cell stores the value and, when
    it differs from the value the cell was merged from, the hook calls its
    [onChange] option, [(c) => onChange (c, pageSize)]. *)
Definition runEffect (acc : HookState * list Notification) (e : Effect) :
  HookState * list Notification :=
  let (s, log) := acc in
  match e with
  | SetPageSize v =>
      ({| innerPageSize := v; innerCurrent := innerCurrent s;
          internalInputVal := internalInputVal s |}, log)
  | SetCurrent v =>
      ({| innerPageSize := innerPageSize s; innerCurrent := v;
          internalInputVal := internalInputVal s |},
       if v =? mergedValue currentProp (innerCurrent st) then log
       else log ++ [OnChange v pageSize])
  | SetInternalInputVal v =>
      ({| innerPageSize := innerPageSize s; innerCurrent := innerCurrent s;
          internalInputVal := v |}, log)
  | CallOnChange p sz => (s, log ++ [OnChange p sz])
  | CallOnShowSizeChange p sz => (s, log ++ [OnShowSizeChange p sz])
  end.

(** The hook state after a handler has run, and what the host was told. *)
Definition dispatch (effects : list Effect) : HookState * list Notification :=
  fold_left runEffect effects (st, []).

(** *** Render *)

(** The development-time check of the [current]/[onChange] pair. *)
Definition devWarnings (production : bool) : list string :=
  if production then []
  else warning (hasCurrent && hasOnChange)
         "Warning: You provided a `current` prop to a Pagination component without an `onChange` handler. This will render a read-only component.".

(** [getItemIcon (icon, label)]: the caller's icon, else the default
    button. *)
Definition getItemIcon (icon : ReactNode) (label : string) : ReactNode :=
  match icon with
  | RNull => RElement label
  | RElement _ => icon
  end.

Definition pageBufferSize : Z := if showLessItems then 1 else 2.

Definition jumpPrev : PagerItem :=
  let jumpPrevContent :=
    itemRender jumpPrevPage jump_prev
      (getItemIcon (Props.jumpPrevIcon props) "prev page") in
  if showPrevNextJumpers then
    if truthy jumpPrevContent then
      JumpPrevLi ((prefixCls ++ "-jump-prev")%string
                :: if truthy (Props.jumpPrevIcon props)
                   then [(prefixCls ++ "-jump-prev-custom-icon")%string]
                   else [])
    else Null
  else Null.

Definition jumpNext : PagerItem :=
  let jumpNextContent :=
    itemRender jumpNextPage jump_next
      (getItemIcon (Props.jumpNextIcon props) "next page") in
  if showPrevNextJumpers then
    if truthy jumpNextContent then
      JumpNextLi ((prefixCls ++ "-jump-next")%string
                :: if truthy (Props.jumpNextIcon props)
                   then [(prefixCls ++ "-jump-next-custom-icon")%string]
                   else [])
    else Null
  else Null.

Definition pagerList : option (list PagerItem) :=
  normalPagerList prefixCls pageBufferSize jumpPrev jumpNext current allPages.

Definition prevPage : Z := if current - 1 >? 0 then current - 1 else 0.
Definition nextPage : Z :=
  if current + 1 <? allPages then current + 1 else allPages.

Definition prevDisabled : bool := negb hasPrev || (allPages =? 0).
Definition nextDisabled : bool :=
  if simple then negb hasNext else negb hasNext || (allPages =? 0).

Definition renderPrev : option NavItem :=
  if truthy (itemRender prevPage prev_item
               (getItemIcon (Props.prevIcon props) "prev page"))
  then Some {| ariaDisabled := prevDisabled;
               tabIndex := if prevDisabled then None else Some 0 |}
  else None.

Definition renderNext : option NavItem :=
  if truthy (itemRender nextPage next_item
               (getItemIcon (Props.nextIcon props) "next page"))
  then Some {| ariaDisabled := nextDisabled;
               tabIndex :=
                 if simple then (if hasPrev then Some 0 else None)
                 else (if nextDisabled then None else Some 0) |}
  else None.

(** The component: [null] when a single page is to be hidden, else the
    [<ul>]. *)
Definition Pagination : Outcome :=
  if hideOnSinglePage && (total <=? pageSize) then ReturnsNull
  else
    match pagerList with
    | None => Throws
    | Some items =>
        Renders
          {| prevLi := renderPrev;
             body := if simple
                     then SimplePager (internalInputVal st) disabled allPages
                     else PagerList items;
             nextLi := renderNext;
             changeSize := showSizeChanger;
             quickGo := shouldDisplayQuickJumper |}
    end.

End Component.

(** ** Names used by the statements *)

(** Names for the locals of the large branch: the ends of the window after
    the two corrections, and the two conditions under which a jump element
    is inserted. *)
Definition windowLeft (b c all : Z) : Z :=
  if all - c <=? b then all - b * 2 else Z.max 1 (c - b).

Definition windowRight (b c all : Z) : Z :=
  if c - 1 <=? b then 1 + b * 2 else Z.min (c + b) all.

Definition insertsJumpPrev (b c : Z) : bool :=
  (c - 1 >=? b * 2) && negb (c =? 1 + 2).

Definition insertsJumpNext (b c all : Z) : bool :=
  (all - c >=? b * 2) && negb (c =? all - 2).

(** An [itemRender] that hands back an element for an element, as
    [defaultItemRender] does. *)
Definition keepsElements
  (render : Z -> ItemType -> ReactNode -> ReactNode) : Prop :=
  forall p t e, truthy e = true -> truthy (render p t e) = true.

(** ** Scenarios *)

Module Scenario.

(** [<Pagination total defaultPageSize defaultCurrent showLessItems />]. *)
Definition uncontrolled (total pageSize current : Z) (showLessItems : bool) :
  Props.t :=
  {| Props.prefixCls := None; Props.current := None;
     Props.defaultCurrent := Some current;
     Props.total := Some total; Props.pageSize := None;
     Props.defaultPageSize := Some pageSize;
     Props.onChange := None; Props.hideOnSinglePage := false;
     Props.showPrevNextJumpers := None; Props.showQuickJumper := false;
     Props.showLessItems := showLessItems; Props.onShowSizeChange := None;
     Props.totalBoundaryShowSizeChanger := None; Props.disabled := false;
     Props.simple := false; Props.showSizeChanger := None;
     Props.itemRender := None;
     Props.jumpPrevIcon := RNull; Props.jumpNextIcon := RNull;
     Props.prevIcon := RNull; Props.nextIcon := RNull |}.

Definition A : Props.t := uncontrolled 500 10 1 false.
Definition B : Props.t := uncontrolled 500 10 25 false.
Definition C : Props.t := uncontrolled 25 10 1 false.
Definition D : Props.t := uncontrolled 500 10 50 false.

End Scenario.

(** ** More of the component body *)

Section Component2.
Variable props : Props.t.
Variable st : HookState.

(** The range handed to [showTotal] in [totalText]:
    [[total === 0 ? 0 : (current - 1) * pageSize + 1,
      current * pageSize > total ? total : current * pageSize]]. *)
Definition totalTextRange : Z * Z :=
  (if total props =? 0 then 0
   else (current props st - 1) * pageSize props st + 1,
   if current props st * pageSize props st >? total props then total props
   else current props st * pageSize props st).

(** [Number] is JavaScript's conversion of a text to a number, taken as
    it is: [None] stands for [NaN].  Texts that read as a number with a
    fraction are outside the integers of this model. *)
Variable Number : string -> option Z.

(** [getValidValue (e)], on [e.target.value]; the empty text is handed
    back as it is ([None]). *)
Definition getValidValue (inputValue : string) : option Z :=
  let allPages := calculatePage None (pageSize props st) (total props) in
  if String.eqb inputValue "" then None
  else
    match Number inputValue with
    | None => Some (internalInputVal st)
    | Some n => if n >=? allPages then Some allPages else Some n
    end.

End Component2.

(** [<Pagination total pageSize current onChange />]: both values are the
    host's. *)
Definition controlledProps (total pageSize current : Z) : Props.t :=
  {| Props.prefixCls := None; Props.current := Some current;
     Props.defaultCurrent := None; Props.total := Some total;
     Props.pageSize := Some pageSize; Props.defaultPageSize := None;
     Props.onChange := Some 0%nat; Props.hideOnSinglePage := false;
     Props.showPrevNextJumpers := None; Props.showQuickJumper := false;
     Props.showLessItems := false; Props.onShowSizeChange := None;
     Props.totalBoundaryShowSizeChanger := None; Props.disabled := false;
     Props.simple := false; Props.showSizeChanger := None;
     Props.itemRender := None;
     Props.jumpPrevIcon := RNull; Props.jumpNextIcon := RNull;
     Props.prevIcon := RNull; Props.nextIcon := RNull |}.

(** [<Pagination total={500} defaultCurrent={25}
    showPrevNextJumpers={false} />]. *)
Definition jumperlessProps : Props.t :=
  {| Props.prefixCls := None; Props.current := None;
     Props.defaultCurrent := Some 25; Props.total := Some 500;
     Props.pageSize := None; Props.defaultPageSize := None;
     Props.onChange := None; Props.hideOnSinglePage := false;
     Props.showPrevNextJumpers := Some false;
     Props.showQuickJumper := false; Props.showLessItems := false;
     Props.onShowSizeChange := None;
     Props.totalBoundaryShowSizeChanger := None; Props.disabled := false;
     Props.simple := false; Props.showSizeChanger := None;
     Props.itemRender := None;
     Props.jumpPrevIcon := RNull; Props.jumpNextIcon := RNull;
     Props.prevIcon := RNull; Props.nextIcon := RNull |}.

(** The hooks are settled on the page shown: the [current] cell and the
    quick-jump input both hold the current page, and it is at least 1. *)
Definition settled (props : Props.t) (st : HookState) : Prop :=
  innerCurrent st = current props st
  /\ internalInputVal st = current props st
  /\ 1 <= current props st.

(** Whether a render hands [changePageSize] to [Options]
    ([changeSize={showSizeChanger ? changePageSize : null}]); a component
    that returns [null] hands over nothing. *)
Definition sizeChangerOffered (props : Props.t) (st : HookState) : bool :=
  match Pagination props st with
  | Renders ul => changeSize ul
  | ReturnsNull | Throws => false
  end.

(** [<Pagination total={60} defaultPageSize={100} hideOnSinglePage />]. *)
Definition hiddenSinglePage : Props.t :=
  {| Props.prefixCls := None; Props.current := None;
     Props.defaultCurrent := None; Props.total := Some 60;
     Props.pageSize := None; Props.defaultPageSize := Some 100;
     Props.onChange := None; Props.hideOnSinglePage := true;
     Props.showPrevNextJumpers := None; Props.showQuickJumper := false;
     Props.showLessItems := false; Props.onShowSizeChange := None;
     Props.totalBoundaryShowSizeChanger := None; Props.disabled := false;
     Props.simple := false; Props.showSizeChanger := None;
     Props.itemRender := None;
     Props.jumpPrevIcon := RNull; Props.jumpNextIcon := RNull;
     Props.prevIcon := RNull; Props.nextIcon := RNull |}.

Definition negativePageSize : Props.t :=
  Scenario.uncontrolled 100 (-10) 1 false.

(** The pages of the pagers of a [pagerList] that are rendered active. *)
Definition activePage (e : PagerItem) : list Z :=
  match e with
  | Pager p true _ => [p]
  | _ => []
  end.

Definition activePages (l : list PagerItem) : list Z :=
  flat_map activePage l.

(** * Properties *)

(** ** Page arithmetic *)

Module PageMath.

(** The page count is the [q] with [(q - 1) * pageSize < total <= q * pageSize]. *)
Lemma calculatePage_bracket (p : option Z) (pageSize total : Z) :
  0 < orDefault pageSize p ->
  (calculatePage p pageSize total - 1) * orDefault pageSize p < total
  /\ total <= calculatePage p pageSize total * orDefault pageSize p.
Proof.
  intros Hpos. unfold calculatePage.
  replace (match p with None => pageSize | Some p' => p' end)
    with (orDefault pageSize p) by (destruct p; reflexivity).
  set (d := orDefault pageSize p) in *.
  pose proof (Z.div_mod (total - 1) d) as Hdm.
  pose proof (Z.mod_pos_bound (total - 1) d Hpos) as Hmod.
  nia.
Qed.

Lemma calculatePage_unique (pageSize total q : Z) :
  0 < pageSize ->
  (q - 1) * pageSize < total <= q * pageSize ->
  calculatePage None pageSize total = q.
Proof.
  intros Hpos Hq.
  destruct (calculatePage_bracket None pageSize total Hpos) as [Hlo Hhi].
  simpl in Hlo, Hhi. nia.
Qed.

(** The first argument, when defined, is the page size that counts. *)
Lemma calculatePage_first_argument (p pageSize total : Z) :
  calculatePage (Some p) pageSize total = calculatePage None p total.
Proof. reflexivity. Qed.

Lemma calculatePage_nonpositive_total (pageSize total : Z) :
  0 < pageSize -> total <= 0 -> calculatePage None pageSize total <= 0.
Proof.
  intros Hpos Ht.
  destruct (calculatePage_bracket None pageSize total Hpos) as [Hlo _].
  simpl in Hlo. nia.
Qed.

Lemma calculatePage_positive_total (pageSize total : Z) :
  0 < pageSize -> 1 <= total -> 1 <= calculatePage None pageSize total.
Proof.
  intros Hpos Ht.
  destruct (calculatePage_bracket None pageSize total Hpos) as [_ Hhi].
  simpl in Hhi. nia.
Qed.

End PageMath.

(** ** The run of pagers pushed by a loop *)

Module Pagers.

Lemma pagers_nil (c lo hi : Z) : hi < lo -> pagers c lo hi = [].
Proof.
  intros H. unfold pagers.
  replace (Z.to_nat (hi - lo + 1)) with 0%nat by lia. reflexivity.
Qed.

Lemma pagers_cons (c lo hi : Z) :
  lo <= hi ->
  pagers c lo hi = Pager lo (c =? lo) [] :: pagers c (lo + 1) hi.
Proof.
  intros H. unfold pagers.
  replace (Z.to_nat (hi - lo + 1)) with (S (Z.to_nat (hi - (lo + 1) + 1)))
    by lia.
  cbn [seq map]. rewrite Z.add_0_r. f_equal.
  rewrite <- seq_shift, map_map.
  apply map_ext. intros k.
  replace (lo + Z.of_nat (S k)) with (lo + 1 + Z.of_nat k) by lia.
  reflexivity.
Qed.

Lemma pagers_snoc (c lo hi : Z) :
  lo <= hi ->
  pagers c lo hi = pagers c lo (hi - 1) ++ [Pager hi (c =? hi) []].
Proof.
  intros H. unfold pagers.
  replace (Z.to_nat (hi - lo + 1)) with (S (Z.to_nat (hi - 1 - lo + 1)))
    by lia.
  rewrite seq_S, map_app. cbn [map Nat.add]. f_equal.
  replace (lo + Z.of_nat (Z.to_nat (hi - 1 - lo + 1))) with hi by lia.
  reflexivity.
Qed.

(** A run of at least two pagers has a first and a last one. *)
Lemma pagers_ends (c lo hi : Z) :
  lo < hi ->
  pagers c lo hi =
  Pager lo (c =? lo) [] :: pagers c (lo + 1) (hi - 1)
    ++ [Pager hi (c =? hi) []].
Proof.
  intros H. rewrite pagers_cons by lia. f_equal.
  apply pagers_snoc. lia.
Qed.

(** Induction on a run follows its length. *)
Lemma pageNumbers_pagers_In_n (c : Z) (n : nat) :
  forall lo hi p, Z.to_nat (hi - lo + 1) = n ->
  In p (pageNumbers (pagers c lo hi)) <-> lo <= p <= hi.
Proof.
  induction n as [|n IH]; intros lo hi p Hn.
  - rewrite pagers_nil by lia. simpl. lia.
  - rewrite pagers_cons by lia. cbn [pageNumbers flat_map pageNumber app In].
    fold (pageNumbers (pagers c (lo + 1) hi)).
    rewrite (IH (lo + 1) hi p) by lia. lia.
Qed.

Lemma pageNumbers_pagers_NoDup_n (c : Z) (n : nat) :
  forall lo hi, Z.to_nat (hi - lo + 1) = n ->
  NoDup (pageNumbers (pagers c lo hi)).
Proof.
  induction n as [|n IH]; intros lo hi Hn.
  - rewrite pagers_nil by lia. constructor.
  - rewrite pagers_cons by lia. cbn [pageNumbers flat_map pageNumber app].
    fold (pageNumbers (pagers c (lo + 1) hi)).
    constructor.
    + rewrite (pageNumbers_pagers_In_n c n (lo + 1) hi lo) by lia. lia.
    + apply IH. lia.
Qed.

Lemma markers_pagers_n (c : Z) (n : nat) :
  forall lo hi, Z.to_nat (hi - lo + 1) = n ->
  markers (pagers c lo hi) = map Number (pageNumbers (pagers c lo hi)).
Proof.
  induction n as [|n IH]; intros lo hi Hn.
  - rewrite pagers_nil by lia. reflexivity.
  - rewrite pagers_cons by lia.
    cbn [markers pageNumbers flat_map marker pageNumber app map].
    f_equal. apply IH. lia.
Qed.

Lemma pageNumbers_pagers_In (c lo hi p : Z) :
  In p (pageNumbers (pagers c lo hi)) <-> lo <= p <= hi.
Proof. exact (pageNumbers_pagers_In_n c _ lo hi p eq_refl). Qed.

Lemma pageNumbers_pagers_NoDup (c lo hi : Z) :
  NoDup (pageNumbers (pagers c lo hi)).
Proof. exact (pageNumbers_pagers_NoDup_n c _ lo hi eq_refl). Qed.

Lemma markers_pagers (c lo hi : Z) :
  markers (pagers c lo hi) = map Number (pageNumbers (pagers c lo hi)).
Proof. exact (markers_pagers_n c _ lo hi eq_refl). Qed.

Lemma pageNumbers_app (l1 l2 : list PagerItem) :
  pageNumbers (l1 ++ l2) = pageNumbers l1 ++ pageNumbers l2.
Proof. apply flat_map_app. Qed.

Lemma markers_app (l1 l2 : list PagerItem) :
  markers (l1 ++ l2) = markers l1 ++ markers l2.
Proof. apply flat_map_app. Qed.

(** Tagging the first or the last pager of a list. *)
Lemma tagFirst_pager (cls : string) p a c (l : list PagerItem) :
  tagFirst cls (Pager p a c :: l) = Some (Pager p a (cls :: c) :: l).
Proof. reflexivity. Qed.

Lemma tagLast_pager (cls : string) p a c (l : list PagerItem) :
  tagLast cls (l ++ [Pager p a c]) = Some (l ++ [Pager p a (cls :: c)]).
Proof.
  unfold tagLast. rewrite rev_app_distr, removelast_last. reflexivity.
Qed.

End Pagers.

(** ** The page list of the [// Normal] block *)

Section Range.
Variable prefix : string.
Variable b : Z.
Variables jp jn : PagerItem.
Variables c all : Z.

Let L := windowLeft b c all.
Let R := windowRight b c all.

(** In the large branch the window always spans [2 * b + 1] pages. *)
Lemma window_width : 0 < b -> 3 + b * 2 < all -> R = L + b * 2.
Proof.
  intros Hb Hall. unfold L, R, windowLeft, windowRight.
  destruct (Z.leb_spec (all - c) b), (Z.leb_spec (c - 1) b); lia.
Qed.

Lemma window_holds_current :
  0 < b -> 3 + b * 2 < all -> 1 <= c <= all -> L <= c <= R.
Proof.
  intros Hb Hall Hc. unfold L, R, windowLeft, windowRight.
  destruct (Z.leb_spec (all - c) b), (Z.leb_spec (c - 1) b); lia.
Qed.

Lemma window_inside : 0 < b -> 3 + b * 2 < all -> 1 <= L /\ R <= all.
Proof.
  intros Hb Hall. unfold L, R, windowLeft, windowRight.
  destruct (Z.leb_spec (all - c) b), (Z.leb_spec (c - 1) b); lia.
Qed.

Lemma normalPagerList_small :
  all <= 3 + b * 2 ->
  normalPagerList prefix b jp jn c all =
  Some ((if all =? 0
         then [Pager 1 false [(prefix ++ "-item-disabled")%string]] else [])
        ++ pagers c 1 all).
Proof.
  intros H. unfold normalPagerList.
  destruct (Z.leb_spec all (3 + b * 2)); [reflexivity | lia].
Qed.

(** The large branch, written out: boundary page 1, the previous jump, the
    window with its first and last pager tagged, the next jump, the last
    boundary page. *)
Lemma normalPagerList_large :
  0 < b -> 3 + b * 2 < all ->
  normalPagerList prefix b jp jn c all =
  Some ((if L =? 1 then [] else [Pager 1 false []])
        ++ (if insertsJumpPrev b c then [jp] else [])
        ++ Pager L (c =? L)
             (if insertsJumpPrev b c
              then [(prefix ++ "-item-after-jump-prev")%string] else [])
           :: pagers c (L + 1) (R - 1)
        ++ [Pager R (c =? R)
              (if insertsJumpNext b c all
               then [(prefix ++ "-item-before-jump-next")%string] else [])]
        ++ (if insertsJumpNext b c all then [jn] else [])
        ++ (if R =? all then [] else [Pager all false []])).
Proof.
  intros Hb Hall.
  pose proof (window_width Hb Hall) as Hw.
  unfold normalPagerList.
  destruct (Z.leb_spec all (3 + b * 2)) as [Hs|_]; [lia|].
  cbv zeta.
  change (if all - c <=? b then all - b * 2 else Z.max 1 (c - b)) with L.
  change (if c - 1 <=? b then 1 + b * 2 else Z.min (c + b) all) with R.
  change ((c - 1 >=? b * 2) && negb (c =? 1 + 2)) with (insertsJumpPrev b c).
  change ((all - c >=? b * 2) && negb (c =? all - 2))
    with (insertsJumpNext b c all).
  rewrite (Pagers.pagers_ends c L R) by lia.
  destruct (insertsJumpPrev b c), (insertsJumpNext b c all);
    rewrite ?Pagers.tagFirst_pager; cbn [option_map unshift push];
    rewrite ?app_comm_cons, ?Pagers.tagLast_pager; cbn [option_map];
    destruct (L =? 1), (R =? all); cbn [negb unshift push app];
    rewrite <- ?app_assoc; reflexivity.
Qed.

(** The block never throws. *)
Lemma normalPagerList_total :
  0 < b -> exists items, normalPagerList prefix b jp jn c all = Some items.
Proof.
  intros Hb. destruct (Z.le_gt_cases all (3 + b * 2)) as [Hs|Hl].
  - rewrite normalPagerList_small by assumption. eauto.
  - rewrite normalPagerList_large by lia. eauto.
Qed.

End Range.

Section RangeFacts.
Variable prefix : string.
Variable b : Z.
Variables jp jn : PagerItem.
Variables c all : Z.
Hypothesis b_pos : 0 < b.

Let L := windowLeft b c all.
Let R := windowRight b c all.

(** The markers of the large branch. *)
Lemma markers_large :
  3 + b * 2 < all ->
  option_map markers (normalPagerList prefix b jp jn c all) =
  Some ((if L =? 1 then [] else [Number 1])
        ++ (if insertsJumpPrev b c then marker jp else [])
        ++ map Number (pageNumbers (pagers c L R))
        ++ (if insertsJumpNext b c all then marker jn else [])
        ++ (if R =? all then [] else [Number all])).
Proof.
  intros Hall. pose proof (window_width b c all b_pos Hall) as Hw.
  rewrite normalPagerList_large by assumption.
  cbn [option_map]. f_equal.
  rewrite (Pagers.pagers_ends c L R) by (unfold L, R; lia).
  unfold L, R.
  rewrite !Pagers.markers_app.
  cbn [pageNumbers flat_map pageNumber app]. rewrite flat_map_app.
  cbn [flat_map pageNumber app map]. rewrite map_app.
  fold (pageNumbers (pagers c (windowLeft b c all + 1)
                       (windowRight b c all - 1))).
  rewrite <- Pagers.markers_pagers.
  cbn [markers flat_map marker app map].
  fold (markers (pagers c (windowLeft b c all + 1) (windowRight b c all - 1))).
  rewrite Pagers.markers_app. cbn [markers flat_map marker app].
  destruct (windowLeft b c all =? 1), (insertsJumpPrev b c),
    (insertsJumpNext b c all), (windowRight b c all =? all);
    cbn [markers flat_map marker app]; rewrite ?app_nil_r;
    rewrite <- ?app_assoc; reflexivity.
Qed.

(** The page numbers of the large branch, when the jump elements are not
    pagers. *)
Lemma pageNumbers_large :
  3 + b * 2 < all -> pageNumber jp = [] -> pageNumber jn = [] ->
  option_map pageNumbers (normalPagerList prefix b jp jn c all) =
  Some ((if L =? 1 then [] else [1])
        ++ pageNumbers (pagers c L R)
        ++ (if R =? all then [] else [all])).
Proof.
  intros Hall Hjp Hjn. pose proof (window_width b c all b_pos Hall) as Hw.
  rewrite normalPagerList_large by assumption.
  cbn [option_map]. f_equal.
  rewrite (Pagers.pagers_ends c L R) by (unfold L, R; lia).
  unfold L, R.
  rewrite !Pagers.pageNumbers_app.
  cbn [pageNumbers flat_map pageNumber app]. rewrite !flat_map_app.
  cbn [flat_map pageNumber app].
  destruct (windowLeft b c all =? 1), (insertsJumpPrev b c),
    (insertsJumpNext b c all), (windowRight b c all =? all);
    unfold pageNumbers; cbn [flat_map pageNumber app];
    rewrite ?Hjp, ?Hjn, ?app_nil_r; cbn [app]; rewrite <- ?app_assoc;
    reflexivity.
Qed.

(** No page number is listed twice, in either branch. *)
Lemma pageNumbers_NoDup :
  pageNumber jp = [] -> pageNumber jn = [] ->
  forall items, normalPagerList prefix b jp jn c all = Some items ->
  NoDup (pageNumbers items).
Proof.
  intros Hjp Hjn items Hitems.
  destruct (Z.le_gt_cases all (3 + b * 2)) as [Hs|Hl].
  - rewrite normalPagerList_small in Hitems by assumption.
    injection Hitems as <-. rewrite Pagers.pageNumbers_app.
    destruct (Z.eqb_spec all 0) as [->|_].
    + rewrite Pagers.pagers_nil by lia. repeat constructor. intros [].
    + apply Pagers.pageNumbers_pagers_NoDup.
  - pose proof (pageNumbers_large Hl Hjp Hjn) as Hn.
    rewrite Hitems in Hn. cbn [option_map] in Hn. injection Hn as ->.
    pose proof (window_inside b c all b_pos Hl) as [HL HR]. fold L R in HL, HR.
    apply NoDup_app; [| apply NoDup_app |].
    + destruct (L =? 1); repeat constructor. intros [].
    + apply Pagers.pageNumbers_pagers_NoDup.
    + destruct (R =? all); repeat constructor. intros [].
    + intros p Hp. rewrite Pagers.pageNumbers_pagers_In in Hp.
      destruct (Z.eqb_spec R all); [intros []|].
      intros [<-|[]]. lia.
    + intros p Hp. rewrite in_app_iff.
      rewrite Pagers.pageNumbers_pagers_In.
      destruct (Z.eqb_spec L 1); [destruct Hp|].
      destruct Hp as [<-|[]].
      destruct (Z.eqb_spec R all); cbn [In]; lia.
Qed.

(** A current page inside [1 .. all] is listed. *)
Lemma pageNumbers_current :
  pageNumber jp = [] -> pageNumber jn = [] -> 1 <= c <= all ->
  forall items, normalPagerList prefix b jp jn c all = Some items ->
  In c (pageNumbers items).
Proof.
  intros Hjp Hjn Hc items Hitems.
  destruct (Z.le_gt_cases all (3 + b * 2)) as [Hs|Hl].
  - rewrite normalPagerList_small in Hitems by assumption.
    injection Hitems as <-. rewrite Pagers.pageNumbers_app, in_app_iff.
    right. rewrite Pagers.pageNumbers_pagers_In. lia.
  - pose proof (pageNumbers_large Hl Hjp Hjn) as Hn.
    rewrite Hitems in Hn. cbn [option_map] in Hn. injection Hn as ->.
    rewrite !in_app_iff. right; left.
    rewrite Pagers.pageNumbers_pagers_In.
    apply window_holds_current; assumption.
Qed.

End RangeFacts.

(** ** Facts about one render *)

Lemma defaultItemRender_keepsElements : keepsElements defaultItemRender.
Proof. intros p t e H. exact H. Qed.

Lemma getItemIcon_truthy (icon : ReactNode) (label : string) :
  truthy (getItemIcon icon label) = true.
Proof. destruct icon; reflexivity. Qed.

Create HintDb render.
#[local] Hint Resolve defaultItemRender_keepsElements getItemIcon_truthy : render.

Section RenderFacts.
Variable props : Props.t.
Variable st : HookState.

Lemma pageBufferSize_pos : 0 < pageBufferSize props.
Proof. unfold pageBufferSize. destruct (showLessItems props); lia. Qed.

Lemma pageBufferSize_cases :
  pageBufferSize props = 1 \/ pageBufferSize props = 2.
Proof. unfold pageBufferSize. destruct (showLessItems props); auto. Qed.

(** [current] is the merged value cut down to the page count. *)
Lemma current_is_min :
  current props st =
  Z.min (mergedValue (currentProp props) (innerCurrent st))
        (allPages props st).
Proof. reflexivity. Qed.

Lemma current_le_allPages : current props st <= allPages props st.
Proof. rewrite current_is_min. lia. Qed.

Lemma pageNumber_jumpPrev : pageNumber (jumpPrev props st) = [].
Proof.
  unfold jumpPrev.
  destruct (showPrevNextJumpers props); [|reflexivity].
  destruct (truthy _); reflexivity.
Qed.

Lemma pageNumber_jumpNext : pageNumber (jumpNext props st) = [].
Proof.
  unfold jumpNext.
  destruct (showPrevNextJumpers props); [|reflexivity].
  destruct (truthy _); reflexivity.
Qed.

Lemma marker_jumpPrev :
  showPrevNextJumpers props = true -> keepsElements (itemRender props) ->
  marker (jumpPrev props st) = [JumpPrev].
Proof.
  intros Hshow Hkeep. unfold jumpPrev. rewrite Hshow.
  rewrite Hkeep by auto with render. reflexivity.
Qed.

Lemma marker_jumpNext :
  showPrevNextJumpers props = true -> keepsElements (itemRender props) ->
  marker (jumpNext props st) = [JumpNext].
Proof.
  intros Hshow Hkeep. unfold jumpNext. rewrite Hshow.
  rewrite Hkeep by auto with render. reflexivity.
Qed.

(** Building the page list never throws. *)
Lemma pagerList_total : exists items, pagerList props st = Some items.
Proof. apply normalPagerList_total, pageBufferSize_pos. Qed.

Lemma Pagination_never_throws : Pagination props st <> Throws.
Proof.
  unfold Pagination. destruct (_ && _); [discriminate|].
  destruct pagerList_total as [items ->]. discriminate.
Qed.


End RenderFacts.

(** ** [handleChange] *)

Section HandleChange.
Variable props : Props.t.
Variable st : HookState.

(** The page [handleChange] settles on. *)
Let newPageOf (page : Z) : Z :=
  if page >? allPages props st then allPages props st
  else if page <? 1 then 1 else page.

Lemma isValid_iff (page : Z) :
  isValid props st page = true <->
  page <> current props st /\ 0 < total props.
Proof.
  unfold isValid, isInteger.
  destruct (Z.eqb_spec page (current props st)) as [He|He],
    (Z.gtb_spec (total props) 0) as [Hg|Hg]; cbn [andb negb];
    (split; [intros Hv; first [discriminate Hv | split; [assumption | lia]]
            | intros [H1 H2]; first [reflexivity | contradiction | lia]]).
Qed.

Lemma handleChange_valid (page : Z) :
  page <> current props st -> 0 < total props -> disabled props = false ->
  handleChange props st page =
  ((if newPageOf page =? internalInputVal st then []
    else [SetInternalInputVal (newPageOf page)])
   ++ [SetCurrent (newPageOf page)],
   newPageOf page).
Proof.
  intros Hne Ht Hd. unfold handleChange.
  rewrite (proj2 (isValid_iff page)) by (split; assumption).
  rewrite Hd. cbn [negb andb]. fold (allPages props st).
  fold (newPageOf page).
  destruct (newPageOf page =? internalInputVal st); reflexivity.
Qed.

Lemma handleChange_invalid (page : Z) :
  page = current props st \/ total props <= 0 \/ disabled props = true ->
  handleChange props st page = ([], current props st).
Proof.
  intros H. unfold handleChange.
  destruct (isValid props st page) eqn:Hv; [|reflexivity].
  apply isValid_iff in Hv. destruct Hv as [Hne Ht].
  destruct H as [H|[H|H]]; [contradiction | lia |].
  rewrite H. reflexivity.
Qed.

Lemma newPageOf_clamp (page : Z) :
  1 <= allPages props st ->
  newPageOf page = Z.max 1 (Z.min page (allPages props st)).
Proof.
  intros Hall. unfold newPageOf.
  destruct (Z.gtb_spec page (allPages props st)); [lia|].
  destruct (Z.ltb_spec page 1); lia.
Qed.

(** The hook state after a valid [handleChange]: both cells hold the new
    page. *)
Lemma dispatch_handleChange_valid (page : Z) :
  page <> current props st -> 0 < total props -> disabled props = false ->
  fst (dispatch props st (fst (handleChange props st page))) =
  {| innerPageSize := innerPageSize st;
     innerCurrent := newPageOf page;
     internalInputVal := newPageOf page |}.
Proof.
  intros Hne Ht Hd. rewrite handleChange_valid by assumption. cbn [fst].
  unfold dispatch.
  destruct (Z.eqb_spec (newPageOf page) (internalInputVal st)) as [He|He];
    cbn [app fold_left runEffect fst innerPageSize innerCurrent
         internalInputVal].
  - rewrite He. reflexivity.
  - reflexivity.
Qed.

Lemma dispatch_handleChange_invalid (page : Z) :
  page = current props st \/ total props <= 0 \/ disabled props = true ->
  dispatch props st (fst (handleChange props st page)) = (st, []).
Proof. intros H. rewrite handleChange_invalid by assumption. reflexivity. Qed.

Lemma allPages_positive :
  1 <= pageSize props st -> 0 < total props -> 1 <= allPages props st.
Proof.
  intros Hps Ht. apply PageMath.calculatePage_positive_total; lia.
Qed.

(** The pages seen by a render depend on the hook state only through the
    two inner values. *)
Lemma allPages_after (st' : HookState) :
  innerPageSize st' = innerPageSize st -> allPages props st' = allPages props st.
Proof.
  intros H. unfold allPages, pageSize, useMergedState, mergedValue.
  rewrite H. reflexivity.
Qed.

Lemma current_after (st' : HookState) :
  innerPageSize st' = innerPageSize st ->
  current props st' =
  Z.min (mergedValue (currentProp props) (innerCurrent st'))
        (allPages props st).
Proof.
  intros H. rewrite current_is_min, (allPages_after st' H). reflexivity.
Qed.

(** Where an uncontrolled component stands after [handleChange]. *)
Lemma current_after_handleChange (page : Z) :
  currentProp props = None ->
  1 <= pageSize props st -> 0 < total props -> disabled props = false ->
  1 <= current props st ->
  current props (fst (dispatch props st (fst (handleChange props st page))))
  = Z.max 1 (Z.min page (allPages props st)).
Proof.
  intros Hun Hps Ht Hd Hcur.
  pose proof (allPages_positive Hps Ht) as Hall.
  pose proof (current_le_allPages props st) as Hle.
  destruct (Z.eq_dec page (current props st)) as [->|Hne].
  - rewrite dispatch_handleChange_invalid by auto. cbn [fst]. lia.
  - rewrite dispatch_handleChange_valid by assumption.
    rewrite current_after by reflexivity.
    rewrite Hun. cbn [mergedValue innerCurrent].
    rewrite newPageOf_clamp by assumption. lia.
Qed.

End HandleChange.

(** ** Jump markers among page numbers *)

Lemma jump_not_number (m : PageMarker) (l : list Z) :
  In m (map Number l) -> m <> JumpPrev /\ m <> JumpNext.
Proof.
  rewrite in_map_iff. intros (p & <- & _). split; discriminate.
Qed.

(** Membership of a jump marker in a short literal list of other markers
    is absurd. *)
Ltac absurd_marker :=
  repeat match goal with
         | H : False |- _ => destruct H
         | H : In _ [] |- _ => destruct H
         | H : In _ (_ :: _) |- _ => destruct H
         | H : @eq PageMarker _ _ |- _ => discriminate H
         end.

(** ** Scenarios B and C *)

Example scenario_B :
  option_map markers (pagerList Scenario.B (mount Scenario.B)) =
  Some [Number 1; JumpPrev; Number 23; Number 24; Number 25; Number 26;
        Number 27; JumpNext; Number 50].
Proof. reflexivity. Qed.

Example scenario_C :
  allPages Scenario.C (mount Scenario.C) = 3
  /\ option_map markers (pagerList Scenario.C (mount Scenario.C)) =
     Some [Number 1; Number 2; Number 3].
Proof. split; reflexivity. Qed.

(** * The specified properties, C1 to C10 *)

(** ** C1: scenario A *)

(** C1, as stated, does not hold: with 500 items, 10 per page, on page 1
    and with the buffer of two pages, the markers are not
    [1, 2, 3, JumpNext, 50]. *)
Lemma scenario_A_is_not_three_pages :
  ~ (allPages Scenario.A (mount Scenario.A) = 50
     /\ option_map markers (pagerList Scenario.A (mount Scenario.A)) =
        Some [Number 1; Number 2; Number 3; JumpNext; Number 50]).
Proof. intros [_ H]. discriminate H. Qed.

(** C1, amended: with 500 items, 10 per page, on page 1 and with the buffer
    of two pages, there are 50 pages and the window is pinned to
    [1 + 2 * 2 = 5] pages at the start: the markers are
    [1, 2, 3, 4, 5, JumpNext, 50], in that order. *)
Theorem scenario_A_markers (props : Props.t) (st : HookState) :
  total props = 500 -> pageSize props st = 10 -> current props st = 1 ->
  showLessItems props = false ->
  showPrevNextJumpers props = true -> keepsElements (itemRender props) ->
  allPages props st = 50
  /\ option_map markers (pagerList props st) =
     Some [Number 1; Number 2; Number 3; Number 4; Number 5; JumpNext;
           Number 50].
Proof.
  intros Ht Hps Hc Hless Hshow Hkeep.
  assert (Hall : allPages props st = 50)
    by (unfold allPages; rewrite Ht, Hps; reflexivity).
  split; [exact Hall|].
  unfold pagerList, pageBufferSize. rewrite Hless, Hc, Hall.
  rewrite markers_large by lia.
  rewrite marker_jumpNext by assumption.
  reflexivity.
Qed.

Lemma scenario_A_markers_witness :
  (total Scenario.A = 500
   /\ pageSize Scenario.A (mount Scenario.A) = 10
   /\ current Scenario.A (mount Scenario.A) = 1
   /\ showLessItems Scenario.A = false
   /\ showPrevNextJumpers Scenario.A = true
   /\ keepsElements (itemRender Scenario.A))
  /\ allPages Scenario.A (mount Scenario.A) = 50
  /\ option_map markers (pagerList Scenario.A (mount Scenario.A)) =
     Some [Number 1; Number 2; Number 3; Number 4; Number 5; JumpNext;
           Number 50].
Proof.
  assert (Hk : keepsElements (itemRender Scenario.A))
    by (intros p t e H; exact H).
  split.
  - repeat split; try reflexivity. exact Hk.
  - apply (scenario_A_markers Scenario.A (mount Scenario.A));
      solve [reflexivity | exact Hk].
Defined.

(** ** C2: degenerate configurations *)






(** With a negative page size and items, [handleChange] is not a no-op:
    for 100 items and a page size of [-10] the count is [-9],
    [handleChange (5)] writes [-9] to the [current] cell and the host is
    told; the page shown stays [-9]. *)
Example negative_pageSize_handleChange :
  allPages negativePageSize (mount negativePageSize) = -9
  /\ current negativePageSize (mount negativePageSize) = -9
  /\ handleChange negativePageSize (mount negativePageSize) 5
     = ([SetCurrent (-9)], -9)
  /\ dispatch negativePageSize (mount negativePageSize) [SetCurrent (-9)]
     = ({| innerPageSize := -10; innerCurrent := -9;
           internalInputVal := -9 |},
        [OnChange (-9) (-10)]).
Proof. repeat split. Qed.

(** ** C3: the stored current page after a total or page-size change *)

(** C3: [postState] cuts the merged value down to the page count and has
    no floor.  For [<Pagination />] ([total = 0], ten items per page, page 1
    requested) the page count is [0] and the current page is [0], where the
    minimum with a floor of [1] is [1]. *)
Theorem postState_has_no_floor :
  total Props.empty = 0
  /\ pageSize Props.empty (mount Props.empty) = 10
  /\ allPages Props.empty (mount Props.empty) = 0
  /\ mergedValue (currentProp Props.empty) (innerCurrent (mount Props.empty))
     = 1
  /\ postState Props.empty (mount Props.empty) 1 = 0
  /\ current Props.empty (mount Props.empty) = 0
  /\ current Props.empty (mount Props.empty)
     <> Z.max 1 (Z.min 1 (allPages Props.empty (mount Props.empty))).
Proof. repeat split. discriminate. Qed.

(** Whatever the page size, no page and a requested page of at least 0
    leave the current page at 0. *)
Lemma current_without_pages (props : Props.t) (st : HookState) :
  allPages props st = 0 ->
  0 <= mergedValue (currentProp props) (innerCurrent st) ->
  current props st = 0.
Proof. intros Hall Hreq. rewrite current_is_min. lia. Qed.

(** When there is at least one page and the requested page is at least 1,
    the current page is inside [1 .. allPages]. *)
Lemma current_in_range (props : Props.t) (st : HookState) :
  1 <= allPages props st ->
  1 <= mergedValue (currentProp props) (innerCurrent st) ->
  1 <= current props st <= allPages props st.
Proof. intros Hall Hreq. rewrite current_is_min. lia. Qed.

(** ** C4: the development-time warning *)

(** C4: outside production the warning is logged unless both a [current]
    prop and an [onChange] handler are supplied; in particular it is logged
    for [<Pagination />], which supplies no [current] prop at all.  The
    check only ever logs. *)
Theorem warning_unless_current_and_onChange :
  (forall props,
      devWarnings props false = [] <->
      hasCurrent props = true /\ hasOnChange props = true)
  /\ (forall props, devWarnings props true = [])
  /\ hasCurrent Props.empty = false
  /\ devWarnings Props.empty false <> [].
Proof.
  split; [|split; [reflexivity | split; [reflexivity | discriminate]]].
  intros props. unfold devWarnings, warning.
  destruct (hasCurrent props), (hasOnChange props); cbn [andb];
    (split; [intros H; try discriminate H; split; reflexivity
            | intros [H1 H2]; try discriminate H1; try discriminate H2;
              reflexivity]).
Qed.

(** ** C5: changing the page size *)

(** C5: for a new page size other than [0], [changePageSize] takes
    [fallback = calculatePage (total, size)] as the next current page when
    it is smaller than the current page and not [0], and the current page
    otherwise; it stores the new size, and it calls [onChange] and then
    [onShowSizeChange] with [(nextCurrent, size)] in every case.  Once the
    size is stored, an uncontrolled page size reads [size] and the page
    count is [fallback]. *)
Theorem changePageSize_notifies (props : Props.t) (st : HookState) (size : Z) :
  size <> 0 ->
  exists nextCurrent,
    let fallback := calculatePage None size (total props) in
    let st' := fst (dispatch props st (changePageSize props st size)) in
    (fallback < current props st /\ fallback <> 0 -> nextCurrent = fallback)
    /\ (~ (fallback < current props st /\ fallback <> 0) ->
        nextCurrent = current props st)
    /\ changePageSize props st size =
       [SetPageSize size; CallOnChange nextCurrent size;
        SetInternalInputVal nextCurrent; CallOnShowSizeChange nextCurrent size]
    /\ dispatch props st (changePageSize props st size) =
       ({| innerPageSize := size; innerCurrent := innerCurrent st;
           internalInputVal := nextCurrent |},
        [OnChange nextCurrent size; OnShowSizeChange nextCurrent size])
    /\ (pageSizeProp props = None ->
        pageSize props st' = size /\ allPages props st' = fallback).
Proof.
  intros _.
  set (fallback := calculatePage None size (total props)).
  exists (if (current props st >? fallback) && negb (fallback =? 0)
          then fallback else current props st).
  cbv zeta.
  split; [|split; [|split; [|split]]].
  - intros [Hlt Hnz]. fold fallback.
    destruct (Z.gtb_spec (current props st) fallback); [|lia].
    destruct (Z.eqb_spec fallback 0); [lia | reflexivity].
  - intros Hnot. fold fallback.
    destruct (Z.gtb_spec (current props st) fallback); [|reflexivity].
    destruct (Z.eqb_spec fallback 0); [reflexivity|].
    exfalso. apply Hnot. lia.
  - reflexivity.
  - reflexivity.
  - intros Hun. unfold allPages, pageSize. rewrite Hun. split; reflexivity.
Qed.

Lemma changePageSize_notifies_witness :
  20 <> 0
  /\ dispatch Scenario.D (mount Scenario.D)
       (changePageSize Scenario.D (mount Scenario.D) 20) =
     ({| innerPageSize := 20; innerCurrent := 50; internalInputVal := 25 |},
      [OnChange 25 20; OnShowSizeChange 25 20])
  /\ allPages Scenario.D
       (fst (dispatch Scenario.D (mount Scenario.D)
               (changePageSize Scenario.D (mount Scenario.D) 20))) = 25.
Proof.
  assert (H : 20 <> 0) by discriminate.
  split; [exact H|].
  destruct (changePageSize_notifies Scenario.D (mount Scenario.D) 20 H)
    as (next & Hadopt & _ & _ & Hrun & Hpages).
  assert (Hnext : next = 25)
    by (rewrite Hadopt; [reflexivity | split; [reflexivity | discriminate]]).
  split.
  - rewrite Hrun, Hnext. reflexivity.
  - apply Hpages. reflexivity.
Defined.

(** Scenario D: 500 items on page 50 of 50; choosing 20 per page reports
    page 25, and the next render has 25 pages and is on page 25. *)
Example scenario_D :
  allPages Scenario.D (mount Scenario.D) = 50
  /\ current Scenario.D (mount Scenario.D) = 50
  /\ changePageSize Scenario.D (mount Scenario.D) 20 =
     [SetPageSize 20; CallOnChange 25 20; SetInternalInputVal 25;
      CallOnShowSizeChange 25 20]
  /\ allPages Scenario.D
       (fst (dispatch Scenario.D (mount Scenario.D)
               (changePageSize Scenario.D (mount Scenario.D) 20))) = 25
  /\ current Scenario.D
       (fst (dispatch Scenario.D (mount Scenario.D)
               (changePageSize Scenario.D (mount Scenario.D) 20))) = 25.
Proof. repeat split. Qed.

(** ** C6: the jump markers *)

Lemma insertsJumpPrev_spec (b c : Z) :
  insertsJumpPrev b c = true <-> c - 1 >= 2 * b /\ c <> 3.
Proof.
  unfold insertsJumpPrev. rewrite andb_true_iff, negb_true_iff.
  rewrite Z.geb_le, Z.eqb_neq. lia.
Qed.

Lemma insertsJumpNext_spec (b c all : Z) :
  insertsJumpNext b c all = true <-> all - c >= 2 * b /\ c <> all - 2.
Proof.
  unfold insertsJumpNext. rewrite andb_true_iff, negb_true_iff.
  rewrite Z.geb_le, Z.eqb_neq. lia.
Qed.

(** C6: in the large branch (page size other than [0]), with the jumpers
    switched on and an [itemRender] that keeps the jump icons, the previous jump is among the
    markers exactly when [current - 1 >= 2 * pageBufferSize] and
    [current <> 3], the next jump exactly when
    [allPages - current >= 2 * pageBufferSize] and
    [current <> allPages - 2]; the previous jump hands
    [max (1, current - d)] to [handleChange] and the next jump
    [min (allPages, current + d)], with [d = 3] under [showLessItems] and
    [5] otherwise. *)
Theorem jump_markers (props : Props.t) (st : HookState) :
  pageSize props st <> 0 ->
  showPrevNextJumpers props = true -> keepsElements (itemRender props) ->
  3 + pageBufferSize props * 2 < allPages props st ->
  exists items,
    let d := if showLessItems props then 3 else 5 in
    pagerList props st = Some items
    /\ (In JumpPrev (markers items) <->
        current props st - 1 >= 2 * pageBufferSize props
        /\ current props st <> 3)
    /\ (In JumpNext (markers items) <->
        allPages props st - current props st >= 2 * pageBufferSize props
        /\ current props st <> allPages props st - 2)
    /\ jumpPrevHandle props st =
       fst (handleChange props st (Z.max 1 (current props st - d)))
    /\ jumpNextHandle props st =
       fst (handleChange props st
              (Z.min (allPages props st) (current props st + d))).
Proof.
  intros _ Hshow Hkeep Hlarge.
  destruct (pagerList_total props st) as [items Hitems].
  exists items. cbv zeta.
  pose proof (markers_large (prefixCls props) _ (jumpPrev props st)
                (jumpNext props st) (current props st) _
                (pageBufferSize_pos props) Hlarge) as Hm.
  fold (pagerList props st) in Hm. rewrite Hitems in Hm.
  cbn [option_map] in Hm. injection Hm as Hm.
  rewrite marker_jumpPrev, marker_jumpNext in Hm by assumption.
  split; [exact Hitems|].
  rewrite Hm, <- insertsJumpPrev_spec, <- insertsJumpNext_spec. clear Hm.
  rewrite !in_app_iff.
  split; [|split; [|split; reflexivity]].
  - split.
    + intros [H|[H|[H|[H|H]]]].
      * destruct (windowLeft _ _ _ =? 1); absurd_marker.
      * destruct (insertsJumpPrev _ _); [reflexivity | destruct H].
      * apply jump_not_number in H. destruct H as [H _]. congruence.
      * destruct (insertsJumpNext _ _ _); absurd_marker.
      * destruct (windowRight _ _ _ =? _); absurd_marker.
    + intros ->. right; left. left. reflexivity.
  - split.
    + intros [H|[H|[H|[H|H]]]].
      * destruct (windowLeft _ _ _ =? 1); absurd_marker.
      * destruct (insertsJumpPrev _ _); absurd_marker.
      * apply jump_not_number in H. destruct H as [_ H]. congruence.
      * destruct (insertsJumpNext _ _ _); [reflexivity | destruct H].
      * destruct (windowRight _ _ _ =? _); absurd_marker.
    + intros ->. right; right; right; left. left. reflexivity.
Qed.

Lemma jump_markers_witness :
  (pageSize Scenario.B (mount Scenario.B) <> 0
   /\ showPrevNextJumpers Scenario.B = true
   /\ keepsElements (itemRender Scenario.B)
   /\ 3 + pageBufferSize Scenario.B * 2
      < allPages Scenario.B (mount Scenario.B))
  /\ exists items,
       pagerList Scenario.B (mount Scenario.B) = Some items
       /\ In JumpPrev (markers items) /\ In JumpNext (markers items)
       /\ jumpPrevHandle Scenario.B (mount Scenario.B) =
          fst (handleChange Scenario.B (mount Scenario.B) 20)
       /\ jumpNextHandle Scenario.B (mount Scenario.B) =
          fst (handleChange Scenario.B (mount Scenario.B) 30).
Proof.
  assert (Hk : keepsElements (itemRender Scenario.B))
    by (intros p t e H; exact H).
  assert (Hl : 3 + pageBufferSize Scenario.B * 2
               < allPages Scenario.B (mount Scenario.B)) by reflexivity.
  assert (Hps : pageSize Scenario.B (mount Scenario.B) <> 0) by discriminate.
  split; [repeat split; assumption|].
  destruct (jump_markers Scenario.B (mount Scenario.B) Hps eq_refl Hk Hl)
    as (items & Hitems & Hprev & Hnext & Hjp & Hjn).
  exists items. split; [exact Hitems|]. split; [|split; [|split]].
  - apply Hprev. vm_compute. split; discriminate.
  - apply Hnext. vm_compute. split; discriminate.
  - exact Hjp.
  - exact Hjn.
Defined.

(** ** C7: no page number twice, the current page once *)

(** C7: for a page size other than [0] and a current page inside
    [1 .. allPages] (the buffer is 1 or 2 pages by construction), the page list is built, no page number is
    listed twice, page 1 and the last page are each listed at most once,
    and the current page is listed exactly once. *)
Theorem page_numbers_unique (props : Props.t) (st : HookState) :
  pageSize props st <> 0 ->
  1 <= current props st <= allPages props st ->
  exists items,
    pagerList props st = Some items
    /\ (pageBufferSize props = 1 \/ pageBufferSize props = 2)
    /\ NoDup (pageNumbers items)
    /\ (count_occ Z.eq_dec (pageNumbers items) 1%Z <= 1)%nat
    /\ (count_occ Z.eq_dec (pageNumbers items) (allPages props st) <= 1)%nat
    /\ count_occ Z.eq_dec (pageNumbers items) (current props st) = 1%nat.
Proof.
  intros _ Hvalid.
  destruct (pagerList_total props st) as [items Hitems].
  exists items.
  assert (Hnd : NoDup (pageNumbers items)).
  { apply (pageNumbers_NoDup (prefixCls props) _ _ _
             (current props st) (allPages props st)
             (pageBufferSize_pos props)
             (pageNumber_jumpPrev props st) (pageNumber_jumpNext props st)).
    exact Hitems. }
  split; [exact Hitems|]. split; [apply pageBufferSize_cases|].
  split; [exact Hnd|].
  pose proof (proj1 (NoDup_count_occ Z.eq_dec _) Hnd) as Hle.
  split; [apply Hle|]. split; [apply Hle|].
  apply (proj1 (NoDup_count_occ' Z.eq_dec _) Hnd).
  apply (pageNumbers_current (prefixCls props) _ _ _ _ _
           (pageBufferSize_pos props)
           (pageNumber_jumpPrev props st) (pageNumber_jumpNext props st)
           Hvalid).
  exact Hitems.
Qed.

Lemma page_numbers_unique_witness :
  (pageSize Scenario.B (mount Scenario.B) <> 0
   /\ 1 <= current Scenario.B (mount Scenario.B)
        <= allPages Scenario.B (mount Scenario.B))
  /\ exists items,
       pagerList Scenario.B (mount Scenario.B) = Some items
       /\ NoDup (pageNumbers items)
       /\ count_occ Z.eq_dec (pageNumbers items) 25 = 1%nat.
Proof.
  assert (H : 1 <= current Scenario.B (mount Scenario.B)
              <= allPages Scenario.B (mount Scenario.B))
    by (split; discriminate).
  assert (Hps : pageSize Scenario.B (mount Scenario.B) <> 0) by discriminate.
  split; [split; assumption|].
  destruct (page_numbers_unique Scenario.B (mount Scenario.B) Hps H)
    as (items & Hitems & _ & Hnd & _ & _ & Hcur).
  exists items. repeat split; assumption.
Defined.

(** ** C8: the page count *)

(** C8: for a page size of at least 1, the page count of [total >= 1]
    items is [floor ((total - 1) / pageSize) + 1], which is at least 1 and
    is the number of pages that just holds the items; no item gives no
    page; and for [total >= 0] the count is [0] exactly when [total] is
    [0]. *)
Theorem totalPages_formula (total pageSize : Z) :
  1 <= pageSize ->
  (1 <= total ->
   calculatePage None pageSize total = (total - 1) / pageSize + 1
   /\ 1 <= calculatePage None pageSize total
   /\ (calculatePage None pageSize total - 1) * pageSize < total
      <= calculatePage None pageSize total * pageSize)
  /\ calculatePage None pageSize 0 = 0
  /\ (0 <= total -> (calculatePage None pageSize total = 0 <-> total = 0)).
Proof.
  intros Hps.
  assert (Hzero : calculatePage None pageSize 0 = 0)
    by (apply PageMath.calculatePage_unique; lia).
  split; [|split; [exact Hzero|]].
  - intros Ht. split; [reflexivity|]. split.
    + apply PageMath.calculatePage_positive_total; lia.
    + apply (PageMath.calculatePage_bracket None pageSize total). simpl. lia.
  - intros Ht. split.
    + intros H0. destruct (Z.eq_dec total 0) as [|Hne]; [assumption|].
      pose proof (PageMath.calculatePage_positive_total pageSize total).
      lia.
    + intros ->. exact Hzero.
Qed.

Lemma totalPages_formula_witness :
  1 <= 10
  /\ calculatePage None 10 25 = 3
  /\ calculatePage None 10 0 = 0
  /\ (calculatePage None 10 500 = 0 <-> 500 = 0).
Proof.
  assert (H : 1 <= 10) by discriminate.
  split; [exact H|].
  destruct (totalPages_formula 25 10 H) as (H25 & H0 & _).
  destruct (totalPages_formula 500 10 H) as (_ & _ & H500).
  split; [|split].
  - destruct H25 as (-> & _); [discriminate | reflexivity].
  - exact H0.
  - apply H500. discriminate.
Defined.

(** ** C9: hiding a single page *)

(** C9: the component returns [null] exactly when [hideOnSinglePage] is
    set and [total <= pageSize]; otherwise it renders the list. *)
Theorem hideOnSinglePage_returns_null (props : Props.t) (st : HookState) :
  (Pagination props st = ReturnsNull <->
   hideOnSinglePage props = true /\ total props <= pageSize props st)
  /\ (Pagination props st <> ReturnsNull ->
      exists ul, Pagination props st = Renders ul).
Proof.
  unfold Pagination.
  destruct (pagerList_total props st) as [items ->].
  destruct (hideOnSinglePage props); cbn [andb].
  - destruct (Z.leb_spec (total props) (pageSize props st)).
    + split; [split; [intros _; split; [reflexivity | assumption]
                     | reflexivity]
             | intros Hne; contradiction Hne; reflexivity].
    + split; [split; [discriminate | intros [_ H']; lia] | eauto].
  - split; [split; [discriminate | intros [H' _]; discriminate] | eauto].
Qed.

(** ** C10: offering the page-size selector *)

(** C10, as stated, does not hold: with [hideOnSinglePage], 60 items and
    100 per page, no [showSizeChanger] prop is supplied and [total] is
    greater than the threshold of 50, yet the component returns [null] and
    offers no page-size selector. *)
Lemma size_changer_hidden_with_single_page :
  Props.showSizeChanger hiddenSinglePage = None
  /\ totalBoundaryShowSizeChanger hiddenSinglePage < total hiddenSinglePage
  /\ Pagination hiddenSinglePage (mount hiddenSinglePage) = ReturnsNull
  /\ ~ (sizeChangerOffered hiddenSinglePage (mount hiddenSinglePage) = true
        <-> totalBoundaryShowSizeChanger hiddenSinglePage
            < total hiddenSinglePage).
Proof.
  repeat split. intros [_ H]. discriminate H. reflexivity.
Qed.

(** C10, amended: when [hideOnSinglePage] is set and [total <= pageSize]
    the component returns [null] and no page-size selector is offered,
    whatever the options.  Otherwise the selector is offered exactly when
    the [showSizeChanger] prop says so, and, when that prop is not
    supplied, exactly when [total] is greater than
    [totalBoundaryShowSizeChanger], which is [50] unless supplied. *)
Theorem size_changer_offered_unless_hidden (props : Props.t)
  (st : HookState) :
  (hideOnSinglePage props = true /\ total props <= pageSize props st ->
   Pagination props st = ReturnsNull
   /\ sizeChangerOffered props st = false)
  /\ (~ (hideOnSinglePage props = true /\ total props <= pageSize props st) ->
      (Props.showSizeChanger props = None ->
       (sizeChangerOffered props st = true <->
        orDefault 50 (Props.totalBoundaryShowSizeChanger props)
        < total props))
      /\ (forall b, Props.showSizeChanger props = Some b ->
                    sizeChangerOffered props st = b)).
Proof.
  unfold sizeChangerOffered, Pagination.
  destruct (pagerList_total props st) as [items ->].
  split.
  - intros [Hhide Hle]. rewrite Hhide.
    rewrite (proj2 (Z.leb_le _ _) Hle). split; reflexivity.
  - intros Hshown.
    assert (Hcond : hideOnSinglePage props
                    && (total props <=? pageSize props st) = false).
    { destruct (hideOnSinglePage props); [|reflexivity].
      destruct (Z.leb_spec (total props) (pageSize props st));
        [|reflexivity].
      exfalso. apply Hshown. split; [reflexivity | assumption]. }
    rewrite Hcond. cbn [changeSize].
    unfold showSizeChanger, showSizeChangerProp, totalBoundaryShowSizeChanger.
    split.
    + intros ->. rewrite Z.gtb_ltb, Z.ltb_lt. reflexivity.
    + intros b ->. reflexivity.
Qed.

(** * Further properties of the component, X1 onwards *)

(** ** Page count *)

(** X1: the page count does not decrease when items are added and does not
    increase when the page grows: for page sizes of at least 1,
    [total <= total'] gives no fewer pages, and for at least one item a
    larger page size gives no more pages. *)
Theorem calculatePage_monotone (pageSize pageSize' total total' : Z) :
  1 <= pageSize -> pageSize <= pageSize' -> total <= total' ->
  calculatePage None pageSize total <= calculatePage None pageSize total'
  /\ (1 <= total ->
      calculatePage None pageSize' total <= calculatePage None pageSize total).
Proof.
  intros Hps Hps' Ht. unfold calculatePage. split.
  - apply Z.add_le_mono_r. apply Z.div_le_mono; lia.
  - intros H1. apply Z.add_le_mono_r.
    apply Z.div_le_compat_l; lia.
Qed.

Lemma calculatePage_monotone_witness :
  (1 <= 10 /\ 10 <= 20 /\ 95 <= 101)
  /\ calculatePage None 10 95 <= calculatePage None 10 101
  /\ calculatePage None 20 95 <= calculatePage None 10 95.
Proof.
  assert (H1 : 1 <= 10) by discriminate.
  assert (H2 : 10 <= 20) by discriminate.
  assert (H3 : 95 <= 101) by discriminate.
  split; [repeat split; assumption|].
  destruct (calculatePage_monotone 10 20 95 101 H1 H2 H3) as [Ha Hb].
  split; [exact Ha | apply Hb; discriminate].
Defined.

(** ** [handleChange], continued *)

(** X2: [handleChange] asks for nothing exactly when the page is the
    current one, there is no item, or the component is disabled; it then
    returns the current page and leaves the hooks as they are. *)
Theorem handleChange_inert_iff (props : Props.t) (st : HookState) (page : Z) :
  (fst (handleChange props st page) = [] <->
   page = current props st \/ total props <= 0 \/ disabled props = true)
  /\ (fst (handleChange props st page) = [] ->
      handleChange props st page = ([], current props st)
      /\ dispatch props st (fst (handleChange props st page)) = (st, [])).
Proof.
  assert (Hiff : fst (handleChange props st page) = [] <->
                 page = current props st \/ total props <= 0
                 \/ disabled props = true).
  { split.
    - intros Hnil.
      destruct (Z.eq_dec page (current props st)) as [|Hne]; [auto|].
      destruct (Z.le_gt_cases (total props) 0) as [|Ht]; [auto|].
      destruct (disabled props) eqn:Hd; [auto|].
      rewrite handleChange_valid in Hnil by (assumption || lia).
      cbn [fst] in Hnil. apply app_eq_nil in Hnil.
      destruct Hnil as [_ Hnil]. discriminate Hnil.
    - intros H. rewrite handleChange_invalid by assumption. reflexivity. }
  split; [exact Hiff|].
  intros Hnil. apply Hiff in Hnil. split.
  - apply handleChange_invalid; assumption.
  - apply dispatch_handleChange_invalid; assumption.
Qed.

(** X3: on a component that has items and is not disabled, with a page
    size of at least 1, [handleChange] of a page other than the current one
    settles on the page of [1 .. allPages] nearest to it ([page] itself when
    it is in range), returns it, and ends by setting the current page to
    it, after at most one update of the quick-jump input. *)
Theorem handleChange_clamps (props : Props.t) (st : HookState) (page : Z) :
  1 <= pageSize props st -> 0 < total props -> disabled props = false ->
  page <> current props st ->
  let newPage := snd (handleChange props st page) in
  newPage = Z.max 1 (Z.min page (allPages props st))
  /\ 1 <= newPage <= allPages props st
  /\ (1 <= page <= allPages props st -> newPage = page)
  /\ exists sync,
       fst (handleChange props st page) = sync ++ [SetCurrent newPage]
       /\ (sync = [] \/ sync = [SetInternalInputVal newPage]).
Proof.
  intros Hps Ht Hd Hne. cbv zeta.
  pose proof (allPages_positive props st Hps Ht) as Hall.
  rewrite handleChange_valid by assumption. cbn [fst snd].
  rewrite newPageOf_clamp by assumption.
  split; [reflexivity|]. split; [lia|]. split; [lia|].
  eexists. split; [reflexivity|].
  destruct (_ =? _); auto.
Qed.

Lemma handleChange_clamps_witness :
  (1 <= pageSize Scenario.B (mount Scenario.B)
   /\ 0 < total Scenario.B /\ disabled Scenario.B = false
   /\ 60 <> current Scenario.B (mount Scenario.B))
  /\ handleChange Scenario.B (mount Scenario.B) 60 =
     ([SetInternalInputVal 50; SetCurrent 50], 50).
Proof.
  assert (H1 : 1 <= pageSize Scenario.B (mount Scenario.B)) by discriminate.
  assert (H2 : 0 < total Scenario.B) by reflexivity.
  assert (H3 : 60 <> current Scenario.B (mount Scenario.B)) by discriminate.
  split; [repeat split; assumption|].
  destruct (handleChange_clamps Scenario.B (mount Scenario.B) 60
              H1 H2 eq_refl H3) as (Hnew & _ & _ & sync & Hfst & _).
  reflexivity.
Defined.

(** X4: in an uncontrolled component that has items, is not disabled and
    stands on a page of at least 1, the render after [handleChange (page)]
    stands on the page of [1 .. allPages] nearest to [page], with the same
    page count; when the page changed, the quick-jump input holds it
    too. *)
Theorem handleChange_round_trip (props : Props.t) (st : HookState)
  (page : Z) :
  currentProp props = None ->
  1 <= pageSize props st -> 0 < total props -> disabled props = false ->
  1 <= current props st ->
  let st' := fst (dispatch props st (fst (handleChange props st page))) in
  current props st' = Z.max 1 (Z.min page (allPages props st))
  /\ allPages props st' = allPages props st
  /\ (page <> current props st -> internalInputVal st' = current props st').
Proof.
  intros Hun Hps Ht Hd Hcur. cbv zeta.
  split; [apply current_after_handleChange; assumption|]. split.
  - destruct (Z.eq_dec page (current props st)) as [->|Hne].
    + rewrite dispatch_handleChange_invalid by auto. reflexivity.
    + rewrite dispatch_handleChange_valid by assumption.
      apply allPages_after. reflexivity.
  - intros Hne.
    rewrite current_after_handleChange by assumption.
    rewrite dispatch_handleChange_valid by assumption.
    cbn [internalInputVal].
    apply newPageOf_clamp. apply allPages_positive; assumption.
Qed.

Lemma handleChange_round_trip_witness :
  (currentProp Scenario.B = None
   /\ 1 <= pageSize Scenario.B (mount Scenario.B)
   /\ 0 < total Scenario.B /\ disabled Scenario.B = false
   /\ 1 <= current Scenario.B (mount Scenario.B))
  /\ current Scenario.B
       (fst (dispatch Scenario.B (mount Scenario.B)
               (fst (handleChange Scenario.B (mount Scenario.B) 0)))) = 1.
Proof.
  assert (H1 : 1 <= pageSize Scenario.B (mount Scenario.B)) by discriminate.
  assert (H2 : 0 < total Scenario.B) by reflexivity.
  assert (H3 : 1 <= current Scenario.B (mount Scenario.B)) by discriminate.
  split; [repeat split; assumption|].
  destruct (handleChange_round_trip Scenario.B (mount Scenario.B) 0
              eq_refl H1 H2 eq_refl H3) as (Hcur & _).
  rewrite Hcur. reflexivity.
Defined.

(** ** Controlled and repeated changes *)

(** X5: when both [current] and [pageSize] are supplied as props, the page
    size, the page count, the current page, the page list and the
    prev/next flags of a render are the same whatever the hooks hold, and
    outside simple mode so is everything the component renders.  (In
    simple mode the input shows the quick-jump cell, which the handlers
    write.) *)
Theorem controlled_render_ignores_hooks (props : Props.t)
  (st st' : HookState) (c s : Z) :
  currentProp props = Some c -> pageSizeProp props = Some s ->
  pageSize props st' = pageSize props st
  /\ allPages props st' = allPages props st
  /\ current props st' = current props st
  /\ current props st = Z.min c (calculatePage None s (total props))
  /\ pagerList props st' = pagerList props st
  /\ hasPrev props st' = hasPrev props st
  /\ hasNext props st' = hasNext props st
  /\ (simple props = false -> Pagination props st' = Pagination props st).
Proof.
  intros Hc Hs.
  assert (Hps : forall x, pageSize props x = s)
    by (intros x; unfold pageSize, useMergedState; rewrite Hs; reflexivity).
  assert (Hall : forall x, allPages props x = calculatePage None s (total props))
    by (intros x; unfold allPages; rewrite Hps; reflexivity).
  assert (Hcur : forall x,
             current props x = Z.min c (calculatePage None s (total props)))
    by (intros x; rewrite current_is_min, Hc, Hall; reflexivity).
  assert (Hlist : pagerList props st' = pagerList props st)
    by (unfold pagerList, jumpPrev, jumpNext, jumpPrevPage, jumpNextPage;
        rewrite !Hcur, !Hall, !Hps; reflexivity).
  assert (Hprev : hasPrev props st' = hasPrev props st)
    by (unfold hasPrev; rewrite !Hcur; reflexivity).
  assert (Hnext : hasNext props st' = hasNext props st)
    by (unfold hasNext; rewrite !Hcur, !Hps; reflexivity).
  split; [rewrite !Hps; reflexivity|].
  split; [rewrite !Hall; reflexivity|].
  split; [rewrite !Hcur; reflexivity|].
  split; [apply Hcur|].
  split; [exact Hlist|]. split; [exact Hprev|]. split; [exact Hnext|].
  intros Hsimple.
  unfold Pagination, renderPrev, renderNext, prevPage, nextPage,
    prevDisabled, nextDisabled, shouldDisplayQuickJumper.
  rewrite Hlist, Hprev, Hnext, Hsimple, !Hcur, !Hall, !Hps. reflexivity.
Qed.

Lemma controlled_render_ignores_hooks_witness :
  (currentProp (controlledProps 95 10 3) = Some 3
   /\ pageSizeProp (controlledProps 95 10 3) = Some 10)
  /\ current (controlledProps 95 10 3)
       {| innerPageSize := 1; innerCurrent := 7; internalInputVal := 7 |} = 3.
Proof.
  split; [split; reflexivity|].
  destruct (controlled_render_ignores_hooks (controlledProps 95 10 3)
              {| innerPageSize := 10; innerCurrent := 3;
                 internalInputVal := 3 |}
              {| innerPageSize := 1; innerCurrent := 7;
                 internalInputVal := 7 |}
              3 10 eq_refl eq_refl)
    as (_ & _ & Hcur & Hval & _).
  rewrite Hcur, Hval. reflexivity.
Defined.

(** X6: [handleChange] with the same page a second time leaves the hooks
    as the first call left them. *)
Theorem handleChange_idempotent (props : Props.t) (st : HookState)
  (page : Z) :
  let st1 := fst (dispatch props st (fst (handleChange props st page))) in
  fst (dispatch props st1 (fst (handleChange props st1 page))) = st1.
Proof.
  cbv zeta.
  destruct (Z.eq_dec page (current props st)) as [He|Hne];
    [rewrite (dispatch_handleChange_invalid props st page) by auto; cbn [fst];
     rewrite dispatch_handleChange_invalid by auto; reflexivity|].
  destruct (Z.le_gt_cases (total props) 0) as [Ht|Ht];
    [rewrite (dispatch_handleChange_invalid props st page) by auto; cbn [fst];
     rewrite dispatch_handleChange_invalid by auto; reflexivity|].
  destruct (disabled props) eqn:Hd;
    [rewrite (dispatch_handleChange_invalid props st page) by auto; cbn [fst];
     rewrite dispatch_handleChange_invalid by auto; reflexivity|].
  rewrite (dispatch_handleChange_valid props st) by (assumption || lia).
  set (st1 := {| innerPageSize := innerPageSize st;
                 innerCurrent := _; internalInputVal := _ |}).
  destruct (Z.eq_dec page (current props st1)) as [He1|Hne1].
  - rewrite dispatch_handleChange_invalid by auto. reflexivity.
  - rewrite dispatch_handleChange_valid by (assumption || lia).
    rewrite (allPages_after props st st1) by reflexivity.
    reflexivity.
Qed.

(** ** Previous, next and the jumps *)

(** X7: in an uncontrolled component that has items, is not disabled and
    stands on a page of at least 1, the render after [prevHandle] stands on
    [max (1, current - 1)] and the render after [nextHandle] on
    [min (allPages, current + 1)]: one page back or forth, and never
    outside [1 .. allPages]. *)
Theorem prev_next_step (props : Props.t) (st : HookState) :
  currentProp props = None ->
  1 <= pageSize props st -> 0 < total props -> disabled props = false ->
  1 <= current props st ->
  current props (fst (dispatch props st (prevHandle props st)))
  = Z.max 1 (current props st - 1)
  /\ current props (fst (dispatch props st (nextHandle props st)))
     = Z.min (allPages props st) (current props st + 1).
Proof.
  intros Hun Hps Ht Hd Hcur.
  pose proof (current_le_allPages props st) as Hle.
  unfold prevHandle, nextHandle, hasPrev, hasNext.
  fold (allPages props st). split.
  - destruct (Z.gtb_spec (current props st) 1).
    + rewrite current_after_handleChange by assumption. lia.
    + cbn [dispatch fold_left fst]. lia.
  - destruct (Z.ltb_spec (current props st) (allPages props st)).
    + rewrite current_after_handleChange by assumption. lia.
    + cbn [dispatch fold_left fst]. lia.
Qed.

Lemma prev_next_step_witness :
  (currentProp Scenario.B = None
   /\ 1 <= pageSize Scenario.B (mount Scenario.B)
   /\ 0 < total Scenario.B /\ disabled Scenario.B = false
   /\ 1 <= current Scenario.B (mount Scenario.B))
  /\ current Scenario.B
       (fst (dispatch Scenario.B (mount Scenario.B)
               (prevHandle Scenario.B (mount Scenario.B)))) = 24
  /\ current Scenario.B
       (fst (dispatch Scenario.B (mount Scenario.B)
               (nextHandle Scenario.B (mount Scenario.B)))) = 26.
Proof.
  assert (H1 : 1 <= pageSize Scenario.B (mount Scenario.B)) by discriminate.
  assert (H2 : 0 < total Scenario.B) by reflexivity.
  assert (H3 : 1 <= current Scenario.B (mount Scenario.B)) by discriminate.
  split; [repeat split; assumption|].
  destruct (prev_next_step Scenario.B (mount Scenario.B)
              eq_refl H1 H2 eq_refl H3) as [Hp Hn].
  rewrite Hp, Hn. split; reflexivity.
Defined.

(** X8: on a component that has items and is not disabled, with a page
    size of at least 1, the previous button is rendered disabled exactly
    when [prevHandle] does nothing, and the next button exactly when
    [nextHandle] does nothing. *)
Theorem disabled_buttons_do_nothing (props : Props.t) (st : HookState) :
  1 <= pageSize props st -> 0 < total props -> disabled props = false ->
  (prevDisabled props st = true <-> prevHandle props st = [])
  /\ (nextDisabled props st = true <-> nextHandle props st = []).
Proof.
  intros Hps Ht Hd.
  pose proof (allPages_positive props st Hps Ht) as Hall.
  assert (Hz : (allPages props st =? 0) = false) by (apply Z.eqb_neq; lia).
  unfold prevDisabled, nextDisabled, prevHandle, nextHandle. rewrite Hz.
  split.
  - destruct (hasPrev props st) eqn:Hp; cbn [negb orb].
    + split; [discriminate|]. intros Hnil.
      unfold hasPrev in Hp. apply Z.gtb_lt in Hp.
      rewrite handleChange_valid in Hnil by (assumption || lia).
      cbn [fst] in Hnil. apply app_eq_nil in Hnil.
      destruct Hnil as [_ Hnil]. discriminate Hnil.
    + split; reflexivity.
  - destruct (hasNext props st) eqn:Hn; cbn [negb orb].
    + assert (Hnon : fst (handleChange props st (current props st + 1)) <> []).
      { rewrite handleChange_valid by (assumption || lia).
        cbn [fst]. intros Hnil. apply app_eq_nil in Hnil.
        destruct Hnil as [_ Hnil]. discriminate Hnil. }
      destruct (simple props); (split; [discriminate | contradiction]).
    + destruct (simple props); split; reflexivity.
Qed.

Lemma disabled_buttons_do_nothing_witness :
  (1 <= pageSize Scenario.A (mount Scenario.A)
   /\ 0 < total Scenario.A /\ disabled Scenario.A = false)
  /\ prevDisabled Scenario.A (mount Scenario.A) = true
  /\ prevHandle Scenario.A (mount Scenario.A) = []
  /\ nextHandle Scenario.A (mount Scenario.A) <> [].
Proof.
  assert (H1 : 1 <= pageSize Scenario.A (mount Scenario.A)) by discriminate.
  assert (H2 : 0 < total Scenario.A) by reflexivity.
  split; [repeat split; assumption|].
  destruct (disabled_buttons_do_nothing Scenario.A (mount Scenario.A)
              H1 H2 eq_refl) as [Hp Hn].
  split; [reflexivity|]. split.
  - apply Hp. reflexivity.
  - intros Hnil. apply Hn in Hnil. discriminate Hnil.
Defined.

(** X9: in an uncontrolled component that has items, is not disabled and
    stands on a page of at least 1, the render after [jumpPrevHandle]
    stands on [max (1, current - d)] and the render after [jumpNextHandle]
    on [min (allPages, current + d)], where [d] is 3 under [showLessItems]
    and 5 otherwise. *)
Theorem jump_step (props : Props.t) (st : HookState) :
  currentProp props = None ->
  1 <= pageSize props st -> 0 < total props -> disabled props = false ->
  1 <= current props st ->
  let d := if showLessItems props then 3 else 5 in
  current props (fst (dispatch props st (jumpPrevHandle props st)))
  = Z.max 1 (current props st - d)
  /\ current props (fst (dispatch props st (jumpNextHandle props st)))
     = Z.min (allPages props st) (current props st + d).
Proof.
  intros Hun Hps Ht Hd Hcur. cbv zeta.
  pose proof (current_le_allPages props st) as Hle.
  unfold jumpPrevHandle, jumpNextHandle.
  rewrite !current_after_handleChange by assumption.
  unfold jumpPrevPage, jumpNextPage. fold (allPages props st).
  destruct (showLessItems props); lia.
Qed.

Lemma jump_step_witness :
  (currentProp Scenario.B = None
   /\ 1 <= pageSize Scenario.B (mount Scenario.B)
   /\ 0 < total Scenario.B /\ disabled Scenario.B = false
   /\ 1 <= current Scenario.B (mount Scenario.B))
  /\ current Scenario.B
       (fst (dispatch Scenario.B (mount Scenario.B)
               (jumpPrevHandle Scenario.B (mount Scenario.B)))) = 20
  /\ current Scenario.B
       (fst (dispatch Scenario.B (mount Scenario.B)
               (jumpNextHandle Scenario.B (mount Scenario.B)))) = 30.
Proof.
  assert (H1 : 1 <= pageSize Scenario.B (mount Scenario.B)) by discriminate.
  assert (H2 : 0 < total Scenario.B) by reflexivity.
  assert (H3 : 1 <= current Scenario.B (mount Scenario.B)) by discriminate.
  split; [repeat split; assumption|].
  destruct (jump_step Scenario.B (mount Scenario.B)
              eq_refl H1 H2 eq_refl H3) as [Hp Hn].
  rewrite Hp, Hn. split; reflexivity.
Defined.

(** ** Changing the page size, continued *)

(** What [changePageSize] does for a new size of at least 1, at least one
    item and a current page of at least 1. *)
Lemma changePageSize_dispatch (props : Props.t) (st : HookState) (size : Z) :
  1 <= size -> 1 <= total props -> 1 <= current props st ->
  exists nextCurrent,
    dispatch props st (changePageSize props st size) =
    ({| innerPageSize := size; innerCurrent := innerCurrent st;
        internalInputVal := nextCurrent |},
     [OnChange nextCurrent size; OnShowSizeChange nextCurrent size])
    /\ nextCurrent =
       Z.min (current props st) (calculatePage None size (total props))
    /\ 1 <= nextCurrent <= current props st
    /\ nextCurrent <= calculatePage None size (total props).
Proof.
  intros Hsize Ht Hcur.
  pose proof (PageMath.calculatePage_positive_total size (total props))
    as Hfb.
  set (fallback := calculatePage None size (total props)) in *.
  exists (if (current props st >? fallback) && negb (fallback =? 0)
          then fallback else current props st).
  split; [reflexivity|].
  destruct (Z.gtb_spec (current props st) fallback),
    (Z.eqb_spec fallback 0); cbn [andb negb]; lia.
Qed.

(** X10: for at least one item and a new page size of at least 1, on a
    page of at least 1, the page [changePageSize] reports to [onChange] and
    [onShowSizeChange] is [min (current, calculatePage (size, total))]: a
    page of the list under the new size, never beyond the current page. *)
Theorem changePageSize_reports_valid_page (props : Props.t) (st : HookState)
  (size : Z) :
  1 <= size -> 1 <= total props -> 1 <= current props st ->
  exists nextCurrent,
    snd (dispatch props st (changePageSize props st size)) =
    [OnChange nextCurrent size; OnShowSizeChange nextCurrent size]
    /\ nextCurrent =
       Z.min (current props st) (calculatePage None size (total props))
    /\ 1 <= nextCurrent <= current props st
    /\ nextCurrent <= calculatePage None size (total props).
Proof.
  intros Hsize Ht Hcur.
  destruct (changePageSize_dispatch props st size Hsize Ht Hcur)
    as (next & Hrun & Hrest).
  exists next. rewrite Hrun. split; [reflexivity | exact Hrest].
Qed.

Lemma changePageSize_reports_valid_page_witness :
  (1 <= 20 /\ 1 <= total Scenario.D
   /\ 1 <= current Scenario.D (mount Scenario.D))
  /\ snd (dispatch Scenario.D (mount Scenario.D)
            (changePageSize Scenario.D (mount Scenario.D) 20)) =
     [OnChange 25 20; OnShowSizeChange 25 20].
Proof.
  assert (H1 : 1 <= 20) by discriminate.
  assert (H2 : 1 <= total Scenario.D) by discriminate.
  assert (H3 : 1 <= current Scenario.D (mount Scenario.D)) by discriminate.
  split; [repeat split; assumption|].
  destruct (changePageSize_reports_valid_page Scenario.D (mount Scenario.D)
              20 H1 H2 H3) as (next & Hrun & Hnext & _).
  rewrite Hrun, Hnext. reflexivity.
Defined.

(** X11: in a component with neither [current] nor [pageSize] supplied
    whose stored page is a page of the list, the render after
    [changePageSize (size)] ([size >= 1], at least one item) uses the new
    size and stands exactly on the page that was reported, which is a page
    of the new list; the quick-jump input holds it too. *)
Theorem changePageSize_round_trip (props : Props.t) (st : HookState)
  (size : Z) :
  currentProp props = None -> pageSizeProp props = None ->
  1 <= pageSize props st -> 1 <= size -> 1 <= total props ->
  1 <= innerCurrent st <= allPages props st ->
  let st' := fst (dispatch props st (changePageSize props st size)) in
  pageSize props st' = size
  /\ allPages props st' = calculatePage None size (total props)
  /\ 1 <= current props st' <= allPages props st'
  /\ internalInputVal st' = current props st'
  /\ snd (dispatch props st (changePageSize props st size)) =
     [OnChange (current props st') size;
      OnShowSizeChange (current props st') size].
Proof.
  intros Hc Hs Hps Hsize Ht Hin. cbv zeta.
  assert (Hcur : current props st = innerCurrent st)
    by (rewrite current_is_min, Hc; cbn [mergedValue]; lia).
  destruct (changePageSize_dispatch props st size Hsize Ht)
    as (next & Hrun & Hnext & Hrange & Hfb); [lia|].
  rewrite Hrun. cbn [fst snd].
  set (st' := {| innerPageSize := size; innerCurrent := innerCurrent st;
                 internalInputVal := next |}).
  assert (Hps' : pageSize props st' = size)
    by (unfold pageSize, useMergedState; rewrite Hs; reflexivity).
  assert (Hall' : allPages props st' = calculatePage None size (total props))
    by (unfold allPages; rewrite Hps'; reflexivity).
  assert (Hcur' : current props st' = next)
    by (rewrite current_is_min, Hc, Hall'; cbn [mergedValue st' innerCurrent];
        lia).
  rewrite Hps', Hall', Hcur'. cbn [internalInputVal st'].
  repeat split; lia.
Qed.

Lemma changePageSize_round_trip_witness :
  (currentProp Scenario.D = None /\ pageSizeProp Scenario.D = None
   /\ 1 <= pageSize Scenario.D (mount Scenario.D) /\ 1 <= 20
   /\ 1 <= total Scenario.D
   /\ 1 <= innerCurrent (mount Scenario.D)
        <= allPages Scenario.D (mount Scenario.D))
  /\ current Scenario.D
       (fst (dispatch Scenario.D (mount Scenario.D)
               (changePageSize Scenario.D (mount Scenario.D) 20)))
     <= 25.
Proof.
  assert (H1 : 1 <= pageSize Scenario.D (mount Scenario.D)) by discriminate.
  assert (H2 : 1 <= 20) by discriminate.
  assert (H3 : 1 <= total Scenario.D) by discriminate.
  assert (H4 : 1 <= innerCurrent (mount Scenario.D)
               <= allPages Scenario.D (mount Scenario.D))
    by (split; discriminate).
  split; [repeat split; solve [assumption | apply H4]|].
  destruct (changePageSize_round_trip Scenario.D (mount Scenario.D) 20
              eq_refl eq_refl H1 H2 H3 H4) as (_ & Hall & Hrange & _).
  rewrite Hall in Hrange. exact (proj2 Hrange).
Defined.

(** ** The range shown by [showTotal] *)

(** X12: with at least one item, a page size of at least 1 and a current
    page of at least 1, the range handed to [showTotal] starts at
    [(current - 1) * pageSize + 1], lies inside [1 .. total], is not empty
    and holds at most [pageSize] items; before the last page it holds
    exactly [pageSize] items, and on the last page it ends at [total]. *)
Theorem totalTextRange_bounds (props : Props.t) (st : HookState) :
  1 <= pageSize props st -> 1 <= total props -> 1 <= current props st ->
  let from := fst (totalTextRange props st) in
  let to := snd (totalTextRange props st) in
  from = (current props st - 1) * pageSize props st + 1
  /\ 1 <= from <= to /\ to <= total props
  /\ to - from + 1 <= pageSize props st
  /\ (current props st < allPages props st ->
      to - from + 1 = pageSize props st)
  /\ (current props st = allPages props st -> to = total props).
Proof.
  intros Hps Ht Hcur. cbv zeta.
  pose proof (current_le_allPages props st) as Hle.
  destruct (PageMath.calculatePage_bracket None (pageSize props st)
              (total props)) as [Hlo Hhi]; [simpl; lia|].
  simpl in Hlo, Hhi. fold (allPages props st) in Hlo, Hhi.
  unfold totalTextRange. cbn [fst snd].
  destruct (Z.eqb_spec (total props) 0); [lia|].
  destruct (Z.gtb_spec (current props st * pageSize props st) (total props));
    repeat split; nia.
Qed.

Lemma totalTextRange_bounds_witness :
  (1 <= pageSize Scenario.C (mount Scenario.C) /\ 1 <= total Scenario.C
   /\ 1 <= current Scenario.C (mount Scenario.C))
  /\ totalTextRange Scenario.C (mount Scenario.C) = (1, 10)
  /\ snd (totalTextRange Scenario.C (mount Scenario.C)) <= 25.
Proof.
  assert (H1 : 1 <= pageSize Scenario.C (mount Scenario.C)) by discriminate.
  assert (H2 : 1 <= total Scenario.C) by discriminate.
  assert (H3 : 1 <= current Scenario.C (mount Scenario.C)) by discriminate.
  split; [repeat split; assumption|].
  destruct (totalTextRange_bounds Scenario.C (mount Scenario.C) H1 H2 H3)
    as (_ & _ & Hto & _).
  split; [reflexivity | exact Hto].
Defined.

(** X13: the ranges of the pages tile [1 .. total]: on page 1 the range
    starts at item 1, and when a render stands one page after another
    (same page size, at least one item) its range starts right after the
    other's end. *)
Theorem totalTextRange_contiguous (props : Props.t) (st st' : HookState) :
  1 <= pageSize props st -> 1 <= total props -> 1 <= current props st ->
  pageSize props st' = pageSize props st ->
  current props st' = current props st + 1 ->
  fst (totalTextRange props st') = snd (totalTextRange props st) + 1
  /\ (current props st = 1 -> fst (totalTextRange props st) = 1).
Proof.
  intros Hps Ht Hcur Hsame Hnext.
  pose proof (current_le_allPages props st') as Hle.
  assert (Hall : allPages props st' = allPages props st)
    by (unfold allPages; rewrite Hsame; reflexivity).
  destruct (PageMath.calculatePage_bracket None (pageSize props st)
              (total props)) as [Hlo Hhi]; [simpl; lia|].
  simpl in Hlo, Hhi. fold (allPages props st) in Hlo, Hhi.
  unfold totalTextRange. cbn [fst snd]. rewrite Hsame, Hnext.
  destruct (Z.eqb_spec (total props) 0); [lia|].
  destruct (Z.gtb_spec (current props st * pageSize props st) (total props));
    split; nia.
Qed.

Lemma totalTextRange_contiguous_witness :
  (1 <= pageSize Scenario.C (mount Scenario.C) /\ 1 <= total Scenario.C
   /\ 1 <= current Scenario.C (mount Scenario.C)
   /\ pageSize Scenario.C
        {| innerPageSize := 10; innerCurrent := 2; internalInputVal := 2 |}
      = pageSize Scenario.C (mount Scenario.C)
   /\ current Scenario.C
        {| innerPageSize := 10; innerCurrent := 2; internalInputVal := 2 |}
      = current Scenario.C (mount Scenario.C) + 1)
  /\ fst (totalTextRange Scenario.C
            {| innerPageSize := 10; innerCurrent := 2;
               internalInputVal := 2 |}) = 11.
Proof.
  assert (H1 : 1 <= pageSize Scenario.C (mount Scenario.C)) by discriminate.
  assert (H2 : 1 <= total Scenario.C) by discriminate.
  assert (H3 : 1 <= current Scenario.C (mount Scenario.C)) by discriminate.
  split; [repeat split; assumption|].
  destruct (totalTextRange_contiguous Scenario.C (mount Scenario.C)
              {| innerPageSize := 10; innerCurrent := 2;
                 internalInputVal := 2 |} H1 H2 H3 eq_refl eq_refl)
    as [Hfrom _].
  rewrite Hfrom. reflexivity.
Defined.

(** ** The page list, continued *)

Module PagerRuns.

Lemma StronglySorted_app_lt (l1 l2 : list Z) :
  StronglySorted Z.lt l1 -> StronglySorted Z.lt l2 ->
  (forall x y, In x l1 -> In y l2 -> x < y) ->
  StronglySorted Z.lt (l1 ++ l2).
Proof.
  intros H1 H2 Hlt. induction H1 as [|a l Hl IH Ha]; [exact H2|].
  cbn [app]. constructor.
  - apply IH. intros x y Hx Hy. apply Hlt; [right|]; assumption.
  - apply Forall_app. split; [exact Ha|].
    apply Forall_forall. intros y Hy. apply Hlt; [left; reflexivity|exact Hy].
Qed.

Lemma pageNumbers_pagers_sorted_n (c : Z) (n : nat) :
  forall lo hi, Z.to_nat (hi - lo + 1) = n ->
  StronglySorted Z.lt (pageNumbers (pagers c lo hi)).
Proof.
  induction n as [|n IH]; intros lo hi Hn.
  - rewrite Pagers.pagers_nil by lia. constructor.
  - rewrite Pagers.pagers_cons by lia.
    cbn [pageNumbers flat_map pageNumber app].
    fold (pageNumbers (pagers c (lo + 1) hi)).
    constructor; [apply IH; lia|].
    apply Forall_forall. intros p Hp.
    apply Pagers.pageNumbers_pagers_In in Hp. lia.
Qed.

Lemma pageNumbers_pagers_sorted (c lo hi : Z) :
  StronglySorted Z.lt (pageNumbers (pagers c lo hi)).
Proof. exact (pageNumbers_pagers_sorted_n c _ lo hi eq_refl). Qed.

Lemma pageNumbers_pagers_hd (c lo hi : Z) :
  lo <= hi -> hd_error (pageNumbers (pagers c lo hi)) = Some lo.
Proof. intros H. rewrite Pagers.pagers_cons by lia. reflexivity. Qed.

Lemma pageNumbers_pagers_last (c lo hi d : Z) :
  lo <= hi -> last (pageNumbers (pagers c lo hi)) d = hi.
Proof.
  intros H. rewrite Pagers.pagers_snoc by lia.
  rewrite Pagers.pageNumbers_app. cbn [pageNumbers flat_map pageNumber app].
  apply last_last.
Qed.

Lemma pageNumbers_pagers_length (c : Z) (n : nat) :
  forall lo hi, Z.to_nat (hi - lo + 1) = n ->
  List.length (pageNumbers (pagers c lo hi)) = n.
Proof.
  induction n as [|n IH]; intros lo hi Hn.
  - rewrite Pagers.pagers_nil by lia. reflexivity.
  - rewrite Pagers.pagers_cons by lia.
    cbn [pageNumbers flat_map pageNumber app List.length].
    fold (pageNumbers (pagers c (lo + 1) hi)).
    rewrite IH by lia. reflexivity.
Qed.

Lemma pagers_length (c lo hi : Z) :
  List.length (pagers c lo hi) = Z.to_nat (hi - lo + 1).
Proof. unfold pagers. rewrite length_map, length_seq. reflexivity. Qed.

(** The one pager of a run that is active is the current page. *)
Lemma activePages_pagers_n (c : Z) (n : nat) :
  forall lo hi, Z.to_nat (hi - lo + 1) = n ->
  activePages (pagers c lo hi) =
  if (lo <=? c) && (c <=? hi) then [c] else [].
Proof.
  induction n as [|n IH]; intros lo hi Hn.
  - rewrite Pagers.pagers_nil by lia.
    destruct (Z.leb_spec lo c), (Z.leb_spec c hi); cbn [andb];
      first [reflexivity | lia].
  - rewrite Pagers.pagers_cons by lia.
    cbn [activePages flat_map].
    fold (activePages (pagers c (lo + 1) hi)).
    rewrite (IH (lo + 1) hi) by lia.
    destruct (Z.eqb_spec c lo) as [->|Hne]; cbn [activePage app].
    + destruct (Z.leb_spec (lo + 1) lo), (Z.leb_spec lo lo),
        (Z.leb_spec lo hi); cbn [andb]; first [reflexivity | lia].
    + destruct (Z.leb_spec (lo + 1) c), (Z.leb_spec lo c),
        (Z.leb_spec c hi); cbn [andb]; first [reflexivity | lia].
Qed.

Lemma activePages_pagers (c lo hi : Z) :
  activePages (pagers c lo hi) =
  if (lo <=? c) && (c <=? hi) then [c] else [].
Proof. exact (activePages_pagers_n c _ lo hi eq_refl). Qed.

Lemma activePages_app (l1 l2 : list PagerItem) :
  activePages (l1 ++ l2) = activePages l1 ++ activePages l2.
Proof. apply flat_map_app. Qed.

(** For the two buffers the component uses, a jump element is inserted
    exactly when the window does not reach the page next to the boundary
    page. *)
Lemma insertsJumpPrev_gap (b c all : Z) :
  b = 1 \/ b = 2 -> 3 + b * 2 < all ->
  insertsJumpPrev b c = true <-> 2 < windowLeft b c all.
Proof.
  intros Hb Hall. rewrite insertsJumpPrev_spec. unfold windowLeft.
  destruct (Z.leb_spec (all - c) b); lia.
Qed.

Lemma insertsJumpNext_gap (b c all : Z) :
  b = 1 \/ b = 2 -> 3 + b * 2 < all ->
  insertsJumpNext b c all = true <-> windowRight b c all < all - 1.
Proof.
  intros Hb Hall. rewrite insertsJumpNext_spec. unfold windowRight.
  destruct (Z.leb_spec (c - 1) b); lia.
Qed.

End PagerRuns.

Section ListFacts.
Variable prefix : string.
Variable b : Z.
Variables jp jn : PagerItem.
Variables c all : Z.
Hypothesis b_pos : 0 < b.

Let L := windowLeft b c all.
Let R := windowRight b c all.

(** The active pagers of the large branch are those of the window. *)
Lemma activePages_large :
  3 + b * 2 < all -> activePage jp = [] -> activePage jn = [] ->
  option_map activePages (normalPagerList prefix b jp jn c all) =
  Some (activePages (pagers c L R)).
Proof.
  intros Hall Hjp Hjn. pose proof (window_width b c all b_pos Hall) as Hw.
  rewrite normalPagerList_large by assumption.
  cbn [option_map]. f_equal.
  rewrite (Pagers.pagers_ends c L R) by (unfold L, R; lia).
  unfold L, R.
  rewrite !PagerRuns.activePages_app.
  cbn [activePages flat_map app]. rewrite !flat_map_app.
  cbn [flat_map app].
  destruct (windowLeft b c all =? 1), (insertsJumpPrev b c),
    (insertsJumpNext b c all), (windowRight b c all =? all),
    (c =? windowLeft b c all), (c =? windowRight b c all);
    unfold activePages; cbn [flat_map activePage app];
    rewrite ?Hjp, ?Hjn, ?app_nil_r; cbn [app]; rewrite <- ?app_assoc;
    reflexivity.
Qed.

(** The list holds at most [2 * b + 5] items, at most [2 * b + 3] of them
    pagers. *)
Lemma normalPagerList_length (items : list PagerItem) :
  normalPagerList prefix b jp jn c all = Some items ->
  pageNumber jp = [] -> pageNumber jn = [] ->
  Z.of_nat (List.length items) <= 2 * b + 5
  /\ Z.of_nat (List.length (pageNumbers items)) <= 2 * b + 3.
Proof.
  intros Hitems Hjp Hjn.
  destruct (Z.le_gt_cases all (3 + b * 2)) as [Hs|Hl].
  - rewrite normalPagerList_small in Hitems by assumption.
    injection Hitems as <-.
    rewrite Pagers.pageNumbers_app, !length_app.
    rewrite PagerRuns.pagers_length.
    rewrite (PagerRuns.pageNumbers_pagers_length c _ 1 all eq_refl).
    destruct (Z.eqb_spec all 0);
      cbn [List.length pageNumbers flat_map pageNumber app]; lia.
  - pose proof (window_width b c all b_pos Hl) as Hw.
    split.
    + rewrite normalPagerList_large in Hitems by assumption.
      injection Hitems as <-.
      rewrite !length_app. cbn [List.length]. rewrite !length_app.
      rewrite PagerRuns.pagers_length.
      destruct (windowLeft b c all =? 1), (insertsJumpPrev b c),
        (insertsJumpNext b c all), (windowRight b c all =? all);
        cbn [List.length app]; lia.
    + pose proof (pageNumbers_large prefix b jp jn c all b_pos Hl Hjp Hjn)
        as Hn.
      rewrite Hitems in Hn. cbn [option_map] in Hn. injection Hn as ->.
      rewrite !length_app.
      rewrite (PagerRuns.pageNumbers_pagers_length c _ _ _ eq_refl).
      destruct (windowLeft b c all =? 1), (windowRight b c all =? all);
        cbn [List.length]; lia.
Qed.

(** The page numbers are listed in increasing order. *)
Lemma pageNumbers_sorted (items : list PagerItem) :
  normalPagerList prefix b jp jn c all = Some items ->
  pageNumber jp = [] -> pageNumber jn = [] ->
  StronglySorted Z.lt (pageNumbers items).
Proof.
  intros Hitems Hjp Hjn.
  destruct (Z.le_gt_cases all (3 + b * 2)) as [Hs|Hl].
  - rewrite normalPagerList_small in Hitems by assumption.
    injection Hitems as <-. rewrite Pagers.pageNumbers_app.
    destruct (Z.eqb_spec all 0) as [->|_].
    + rewrite Pagers.pagers_nil by lia. repeat constructor.
    + apply PagerRuns.pageNumbers_pagers_sorted.
  - pose proof (pageNumbers_large prefix b jp jn c all b_pos Hl Hjp Hjn) as Hn.
    rewrite Hitems in Hn. cbn [option_map] in Hn. injection Hn as ->.
    pose proof (window_inside b c all b_pos Hl) as [HL HR].
    fold L R in HL, HR |- *.
    apply PagerRuns.StronglySorted_app_lt;
      [| apply PagerRuns.StronglySorted_app_lt |].
    + destruct (L =? 1); repeat constructor.
    + apply PagerRuns.pageNumbers_pagers_sorted.
    + destruct (R =? all); repeat constructor.
    + intros x y Hx Hy. apply Pagers.pageNumbers_pagers_In in Hx.
      destruct (Z.eqb_spec R all); cbn [In] in Hy; lia.
    + intros x y Hx Hy. rewrite in_app_iff in Hy.
      rewrite Pagers.pageNumbers_pagers_In in Hy.
      destruct (Z.eqb_spec L 1); cbn [In] in Hx; [lia|].
      destruct (Z.eqb_spec R all); cbn [In] in Hy; lia.
Qed.

(** With at least one page, the list starts at page 1 and ends at the
    last page. *)
Lemma pageNumbers_ends (items : list PagerItem) :
  normalPagerList prefix b jp jn c all = Some items ->
  pageNumber jp = [] -> pageNumber jn = [] -> 1 <= all ->
  hd_error (pageNumbers items) = Some 1
  /\ last (pageNumbers items) 0 = all.
Proof.
  intros Hitems Hjp Hjn H1.
  destruct (Z.le_gt_cases all (3 + b * 2)) as [Hs|Hl].
  - rewrite normalPagerList_small in Hitems by assumption.
    injection Hitems as <-.
    destruct (Z.eqb_spec all 0); [lia|]. cbn [app].
    split; [apply PagerRuns.pageNumbers_pagers_hd
           | apply PagerRuns.pageNumbers_pagers_last]; lia.
  - pose proof (pageNumbers_large prefix b jp jn c all b_pos Hl Hjp Hjn) as Hn.
    rewrite Hitems in Hn. cbn [option_map] in Hn. injection Hn as ->.
    pose proof (window_width b c all b_pos Hl) as Hw.
    fold L R in Hw |- *.
    split.
    + destruct (Z.eqb_spec L 1) as [He|_]; [|reflexivity].
      rewrite Pagers.pagers_cons by lia. rewrite He. reflexivity.
    + rewrite app_assoc.
      destruct (Z.eqb_spec R all) as [He|_].
      * rewrite app_nil_r.
        rewrite Pagers.pagers_snoc by lia.
        rewrite Pagers.pageNumbers_app.
        cbn [pageNumbers flat_map pageNumber app].
        rewrite app_assoc, last_last. exact He.
      * apply last_last.
Qed.

End ListFacts.

Lemma activePage_jumpPrev (props : Props.t) (st : HookState) :
  activePage (jumpPrev props st) = [].
Proof.
  unfold jumpPrev.
  destruct (showPrevNextJumpers props); [|reflexivity].
  destruct (truthy _); reflexivity.
Qed.

Lemma activePage_jumpNext (props : Props.t) (st : HookState) :
  activePage (jumpNext props st) = [].
Proof.
  unfold jumpNext.
  destruct (showPrevNextJumpers props); [|reflexivity].
  destruct (truthy _); reflexivity.
Qed.

(** X14: for a page size other than [0] and at least one page, the page
    numbers of the page list are in strictly increasing order, the first
    is page 1 and the last is the last page. *)
Theorem page_numbers_ascending (props : Props.t) (st : HookState) :
  pageSize props st <> 0 -> 1 <= allPages props st ->
  exists items,
    pagerList props st = Some items
    /\ StronglySorted Z.lt (pageNumbers items)
    /\ hd_error (pageNumbers items) = Some 1
    /\ last (pageNumbers items) 0 = allPages props st.
Proof.
  intros _ Hall.
  destruct (pagerList_total props st) as [items Hitems].
  exists items. split; [exact Hitems|]. split.
  - apply (pageNumbers_sorted (prefixCls props) _ _ _ _ _
             (pageBufferSize_pos props) _ Hitems
             (pageNumber_jumpPrev props st) (pageNumber_jumpNext props st)).
  - apply (pageNumbers_ends (prefixCls props) _ _ _ _ _
             (pageBufferSize_pos props) _ Hitems
             (pageNumber_jumpPrev props st) (pageNumber_jumpNext props st)
             Hall).
Qed.

Lemma page_numbers_ascending_witness :
  (pageSize Scenario.B (mount Scenario.B) <> 0
   /\ 1 <= allPages Scenario.B (mount Scenario.B))
  /\ exists items,
       pagerList Scenario.B (mount Scenario.B) = Some items
       /\ StronglySorted Z.lt (pageNumbers items)
       /\ last (pageNumbers items) 0 = 50.
Proof.
  assert (H1 : pageSize Scenario.B (mount Scenario.B) <> 0) by discriminate.
  assert (H2 : 1 <= allPages Scenario.B (mount Scenario.B)) by discriminate.
  split; [split; assumption|].
  destruct (page_numbers_ascending Scenario.B (mount Scenario.B) H1 H2)
    as (items & Hitems & Hsorted & _ & Hlast).
  exists items. repeat split; assumption.
Defined.

(** X15: for a page size other than [0], the pagers rendered active are
    the current page alone when it is at least 1, and none otherwise. *)
Theorem active_page_is_current (props : Props.t) (st : HookState) :
  pageSize props st <> 0 ->
  exists items,
    pagerList props st = Some items
    /\ activePages items =
       if 1 <=? current props st then [current props st] else [].
Proof.
  intros _.
  destruct (pagerList_total props st) as [items Hitems].
  exists items. split; [exact Hitems|].
  pose proof (current_le_allPages props st) as Hle.
  pose proof (pageBufferSize_pos props) as Hb.
  unfold pagerList in Hitems.
  destruct (Z.le_gt_cases (allPages props st) (3 + pageBufferSize props * 2))
    as [Hs|Hl].
  - rewrite normalPagerList_small in Hitems by assumption.
    injection Hitems as <-.
    rewrite PagerRuns.activePages_app, PagerRuns.activePages_pagers.
    replace (current props st <=? allPages props st) with true
      by (symmetry; apply Z.leb_le; exact Hle).
    rewrite andb_true_r.
    destruct (allPages props st =? 0); reflexivity.
  - pose proof (activePages_large (prefixCls props) _ (jumpPrev props st)
                  (jumpNext props st) (current props st) _ Hb Hl
                  (activePage_jumpPrev props st)
                  (activePage_jumpNext props st)) as Ha.
    rewrite Hitems in Ha. cbn [option_map] in Ha. injection Ha as ->.
    rewrite PagerRuns.activePages_pagers.
    pose proof (window_inside _ (current props st) _ Hb Hl) as [HL HR].
    destruct (Z.leb_spec 1 (current props st)) as [H1|H1].
    + pose proof (window_holds_current _ _ _ Hb Hl (conj H1 Hle))
        as [Hlo Hhi].
      rewrite (proj2 (Z.leb_le _ _) Hlo), (proj2 (Z.leb_le _ _) Hhi).
      reflexivity.
    + replace (windowLeft (pageBufferSize props) (current props st)
                 (allPages props st) <=? current props st) with false
        by (symmetry; apply Z.leb_gt; lia).
      reflexivity.
Qed.

Lemma active_page_is_current_witness :
  pageSize Scenario.B (mount Scenario.B) <> 0
  /\ exists items,
       pagerList Scenario.B (mount Scenario.B) = Some items
       /\ activePages items = [25].
Proof.
  assert (H1 : pageSize Scenario.B (mount Scenario.B) <> 0) by discriminate.
  split; [exact H1|].
  destruct (active_page_is_current Scenario.B (mount Scenario.B) H1)
    as (items & Hitems & Hactive).
  exists items. split; [exact Hitems | exact Hactive].
Defined.

(** X16: for a page size other than [0], the page list holds at most 9
    items, at most 7 of them pagers; under [showLessItems] at most 7 and
    5. *)
Theorem page_list_length (props : Props.t) (st : HookState) :
  pageSize props st <> 0 ->
  exists items,
    pagerList props st = Some items
    /\ Z.of_nat (List.length items)
       <= (if showLessItems props then 7 else 9)
    /\ Z.of_nat (List.length (pageNumbers items))
       <= (if showLessItems props then 5 else 7).
Proof.
  intros _.
  destruct (pagerList_total props st) as [items Hitems].
  exists items. split; [exact Hitems|].
  pose proof (normalPagerList_length (prefixCls props) _ _ _ _ _
                (pageBufferSize_pos props) items Hitems
                (pageNumber_jumpPrev props st) (pageNumber_jumpNext props st))
    as [Hlen Hpages].
  unfold pageBufferSize in Hlen, Hpages.
  destruct (showLessItems props); split; lia.
Qed.

Lemma page_list_length_witness :
  pageSize Scenario.B (mount Scenario.B) <> 0
  /\ exists items,
       pagerList Scenario.B (mount Scenario.B) = Some items
       /\ Z.of_nat (List.length items) <= 9.
Proof.
  assert (H1 : pageSize Scenario.B (mount Scenario.B) <> 0) by discriminate.
  split; [exact H1|].
  destruct (page_list_length Scenario.B (mount Scenario.B) H1)
    as (items & Hitems & Hlen & _).
  exists items. split; [exact Hitems | exact Hlen].
Defined.

(** ** Jump markers and the pages they stand for *)

Lemma In_JumpPrev_shape (n1 n2 n3 : list Z) (jpb jnb : bool) :
  In JumpPrev (map Number n1 ++ (if jpb then [JumpPrev] else [])
               ++ map Number n2 ++ (if jnb then [JumpNext] else [])
               ++ map Number n3) <-> jpb = true.
Proof.
  rewrite !in_app_iff. split.
  - intros [H|[H|[H|[H|H]]]];
      try (apply jump_not_number in H; destruct H; congruence).
    + destruct jpb; [reflexivity | destruct H].
    + destruct jnb; absurd_marker.
  - intros ->. right; left. left. reflexivity.
Qed.

Lemma In_JumpNext_shape (n1 n2 n3 : list Z) (jpb jnb : bool) :
  In JumpNext (map Number n1 ++ (if jpb then [JumpPrev] else [])
               ++ map Number n2 ++ (if jnb then [JumpNext] else [])
               ++ map Number n3) <-> jnb = true.
Proof.
  rewrite !in_app_iff. split.
  - intros [H|[H|[H|[H|H]]]];
      try (apply jump_not_number in H; destruct H; congruence).
    + destruct jpb; absurd_marker.
    + destruct jnb; [reflexivity | destruct H].
  - intros ->. right; right; right; left. left. reflexivity.
Qed.

Section Elision.
Variable props : Props.t.
Variable st : HookState.

Local Abbreviation b := (pageBufferSize props).
Local Abbreviation c := (current props st).
Local Abbreviation all := (allPages props st).

(** The large branch, as markers and as page numbers. *)
Lemma large_render :
  3 + b * 2 < all ->
  showPrevNextJumpers props = true -> keepsElements (itemRender props) ->
  exists items,
    pagerList props st = Some items
    /\ markers items =
       map Number (if windowLeft b c all =? 1 then [] else [1])
       ++ (if insertsJumpPrev b c then [JumpPrev] else [])
       ++ map Number
            (pageNumbers (pagers c (windowLeft b c all) (windowRight b c all)))
       ++ (if insertsJumpNext b c all then [JumpNext] else [])
       ++ map Number (if windowRight b c all =? all then [] else [all])
    /\ pageNumbers items =
       (if windowLeft b c all =? 1 then [] else [1])
       ++ pageNumbers (pagers c (windowLeft b c all) (windowRight b c all))
       ++ (if windowRight b c all =? all then [] else [all]).
Proof.
  intros Hl Hshow Hkeep.
  destruct (pagerList_total props st) as [items Hitems].
  exists items. split; [exact Hitems|].
  pose proof (markers_large (prefixCls props) _ (jumpPrev props st)
                (jumpNext props st) c _ (pageBufferSize_pos props) Hl) as Hm.
  pose proof (pageNumbers_large (prefixCls props) _ (jumpPrev props st)
                (jumpNext props st) c _ (pageBufferSize_pos props) Hl
                (pageNumber_jumpPrev props st) (pageNumber_jumpNext props st))
    as Hn.
  fold (pagerList props st) in Hm, Hn. rewrite Hitems in Hm, Hn.
  cbn [option_map] in Hm, Hn. injection Hm as Hm. injection Hn as Hn.
  rewrite marker_jumpPrev, marker_jumpNext in Hm by assumption.
  split; [|exact Hn].
  rewrite Hm.
  destruct (windowLeft b c all =? 1), (windowRight b c all =? all);
    reflexivity.
Qed.

(** The small branch: every page, and the placeholder when there is
    none. *)
Lemma small_render :
  all <= 3 + b * 2 ->
  exists items,
    pagerList props st = Some items
    /\ markers items = map Number (pageNumbers items)
    /\ pageNumbers items =
       (if all =? 0 then [1] else []) ++ pageNumbers (pagers c 1 all).
Proof.
  intros Hs. unfold pagerList.
  rewrite normalPagerList_small by assumption.
  eexists. split; [reflexivity|].
  rewrite Pagers.markers_app, Pagers.pageNumbers_app, map_app.
  rewrite Pagers.markers_pagers.
  destruct (all =? 0); split; reflexivity.
Qed.

Lemma b_cases : b = 1 \/ b = 2.
Proof. apply pageBufferSize_cases. Qed.

Lemma c_le_all : c <= all.
Proof. apply current_le_allPages. Qed.

End Elision.

(** X17: for a page size other than [0], with the jumpers switched on and
    an [itemRender] that keeps the jump icons, the previous jump is among
    the markers exactly when there are more than two pages and page 2 is
    not listed, and the next jump exactly when there are more than two
    pages and the page before the last is not listed. *)
Theorem jump_iff_neighbour_hidden (props : Props.t) (st : HookState) :
  pageSize props st <> 0 ->
  showPrevNextJumpers props = true -> keepsElements (itemRender props) ->
  exists items,
    pagerList props st = Some items
    /\ (In JumpPrev (markers items) <->
        2 < allPages props st /\ ~ In 2 (pageNumbers items))
    /\ (In JumpNext (markers items) <->
        2 < allPages props st
        /\ ~ In (allPages props st - 1) (pageNumbers items)).
Proof.
  intros _ Hshow Hkeep.
  pose proof (b_cases props) as Hb.
  destruct (Z.le_gt_cases (allPages props st) (3 + pageBufferSize props * 2))
    as [Hs|Hl].
  - destruct (small_render props st Hs) as (items & Hitems & Hm & Hn).
    exists items. split; [exact Hitems|].
    rewrite Hm, Hn. rewrite !in_app_iff, !Pagers.pageNumbers_pagers_In.
    split; (split;
      [intros H; apply jump_not_number in H; destruct H; congruence
      | intros [H2 Hnot]; exfalso; apply Hnot; right; lia]).
  - destruct (large_render props st Hl Hshow Hkeep)
      as (items & Hitems & Hm & Hn).
    exists items. split; [exact Hitems|].
    pose proof (window_width _ (current props st) _
                  (pageBufferSize_pos props) Hl) as Hw.
    pose proof (window_inside _ (current props st) _
                  (pageBufferSize_pos props) Hl) as [HL HR].
    rewrite Hm, Hn, In_JumpPrev_shape, In_JumpNext_shape.
    rewrite (PagerRuns.insertsJumpPrev_gap _ (current props st) _ Hb Hl).
    rewrite (PagerRuns.insertsJumpNext_gap _ (current props st) _ Hb Hl).
    rewrite !in_app_iff, !Pagers.pageNumbers_pagers_In.
    destruct (Z.eqb_spec (windowLeft (pageBufferSize props) (current props st)
                            (allPages props st)) 1),
      (Z.eqb_spec (windowRight (pageBufferSize props) (current props st)
                     (allPages props st)) (allPages props st));
      cbn [In]; split; lia.
Qed.

Lemma jump_iff_neighbour_hidden_witness :
  (pageSize Scenario.A (mount Scenario.A) <> 0
   /\ showPrevNextJumpers Scenario.A = true
   /\ keepsElements (itemRender Scenario.A))
  /\ exists items,
       pagerList Scenario.A (mount Scenario.A) = Some items
       /\ ~ In JumpPrev (markers items) /\ In JumpNext (markers items).
Proof.
  assert (H1 : pageSize Scenario.A (mount Scenario.A) <> 0) by discriminate.
  assert (Hk : keepsElements (itemRender Scenario.A))
    by (intros p t e H; exact H).
  split; [repeat split; assumption|].
  destruct (jump_iff_neighbour_hidden Scenario.A (mount Scenario.A)
              H1 eq_refl Hk) as (items & Hitems & Hprev & Hnext).
  exists items. split; [exact Hitems|].
  assert (Hlist : items =
                  [Pager 1 true []; Pager 2 false []; Pager 3 false [];
                   Pager 4 false [];
                   Pager 5 false ["rc-pagination-item-before-jump-next"%string];
                   JumpNextLi ["rc-pagination-jump-next"%string];
                   Pager 50 false []])
    by (injection Hitems as <-; reflexivity).
  split.
  - intros H. apply Hprev in H. destruct H as [_ H]. apply H.
    rewrite Hlist. cbn. auto.
  - apply Hnext. split; [reflexivity|].
    rewrite Hlist. cbn. intros [H|[H|[H|[H|[H|[H|[]]]]]]]; discriminate H.
Defined.

(** X18: for a page size other than [0], with the jumpers switched on and
    an [itemRender] that keeps the jump icons, every page of
    [1 .. allPages] is listed, or lies before the current page with the
    previous jump shown, or after it with the next jump shown. *)
Theorem page_listed_or_behind_jump (props : Props.t) (st : HookState) :
  pageSize props st <> 0 ->
  showPrevNextJumpers props = true -> keepsElements (itemRender props) ->
  exists items,
    pagerList props st = Some items
    /\ forall p, 1 <= p <= allPages props st ->
         In p (pageNumbers items)
         \/ (p < current props st /\ In JumpPrev (markers items))
         \/ (current props st < p /\ In JumpNext (markers items)).
Proof.
  intros _ Hshow Hkeep.
  pose proof (b_cases props) as Hb.
  pose proof (c_le_all props st) as Hc.
  destruct (Z.le_gt_cases (allPages props st) (3 + pageBufferSize props * 2))
    as [Hs|Hl].
  - destruct (small_render props st Hs) as (items & Hitems & Hm & Hn).
    exists items. split; [exact Hitems|].
    intros p Hp. left. rewrite Hn, in_app_iff, Pagers.pageNumbers_pagers_In.
    right. exact Hp.
  - destruct (large_render props st Hl Hshow Hkeep)
      as (items & Hitems & Hm & Hn).
    exists items. split; [exact Hitems|].
    intros p Hp.
    rewrite Hm, Hn, In_JumpPrev_shape, In_JumpNext_shape.
    rewrite insertsJumpPrev_spec, insertsJumpNext_spec.
    rewrite !in_app_iff, !Pagers.pageNumbers_pagers_In.
    unfold windowLeft, windowRight.
    destruct (Z.leb_spec (allPages props st - current props st)
                (pageBufferSize props)),
      (Z.leb_spec (current props st - 1) (pageBufferSize props));
      repeat match goal with
             | |- context [if ?x =? ?y then _ else _] =>
                 destruct (Z.eqb_spec x y)
             end; cbn [In]; lia.
Qed.

Lemma page_listed_or_behind_jump_witness :
  (pageSize Scenario.B (mount Scenario.B) <> 0
   /\ showPrevNextJumpers Scenario.B = true
   /\ keepsElements (itemRender Scenario.B))
  /\ exists items,
       pagerList Scenario.B (mount Scenario.B) = Some items
       /\ (In 10 (pageNumbers items)
           \/ (10 < current Scenario.B (mount Scenario.B)
               /\ In JumpPrev (markers items))
           \/ (current Scenario.B (mount Scenario.B) < 10
               /\ In JumpNext (markers items))).
Proof.
  assert (H1 : pageSize Scenario.B (mount Scenario.B) <> 0) by discriminate.
  assert (Hk : keepsElements (itemRender Scenario.B))
    by (intros p t e H; exact H).
  split; [repeat split; assumption|].
  destruct (page_listed_or_behind_jump Scenario.B (mount Scenario.B)
              H1 eq_refl Hk) as (items & Hitems & Hall).
  exists items. split; [exact Hitems|].
  apply Hall. split; discriminate.
Defined.

(** X19: for a page size other than [0], with the jumpers switched off the
    markers of the page list are its page numbers and nothing else: no
    jump marker is shown, whatever the page. *)
Theorem jumpers_off_numbers_only (props : Props.t) (st : HookState) :
  pageSize props st <> 0 -> showPrevNextJumpers props = false ->
  exists items,
    pagerList props st = Some items
    /\ markers items = map Number (pageNumbers items)
    /\ ~ In JumpPrev (markers items) /\ ~ In JumpNext (markers items).
Proof.
  intros _ Hoff.
  assert (Hjp : marker (jumpPrev props st) = [])
    by (unfold jumpPrev; rewrite Hoff; reflexivity).
  assert (Hjn : marker (jumpNext props st) = [])
    by (unfold jumpNext; rewrite Hoff; reflexivity).
  assert (Hmain : exists items,
             pagerList props st = Some items
             /\ markers items = map Number (pageNumbers items)).
  { destruct (Z.le_gt_cases (allPages props st)
                (3 + pageBufferSize props * 2)) as [Hs|Hl].
    - destruct (small_render props st Hs) as (items & Hitems & Hm & _).
      exists items. split; assumption.
    - destruct (pagerList_total props st) as [items Hitems].
      exists items. split; [exact Hitems|].
      pose proof (markers_large (prefixCls props) _ (jumpPrev props st)
                    (jumpNext props st) (current props st) _
                    (pageBufferSize_pos props) Hl) as Hm.
      pose proof (pageNumbers_large (prefixCls props) _ (jumpPrev props st)
                    (jumpNext props st) (current props st) _
                    (pageBufferSize_pos props) Hl
                    (pageNumber_jumpPrev props st)
                    (pageNumber_jumpNext props st)) as Hn.
      fold (pagerList props st) in Hm, Hn. rewrite Hitems in Hm, Hn.
      cbn [option_map] in Hm, Hn. injection Hm as Hm. injection Hn as Hn.
      rewrite Hm, Hn, Hjp, Hjn, !map_app.
      destruct (_ =? 1), (insertsJumpPrev _ _), (insertsJumpNext _ _ _),
        (windowRight _ _ _ =? _); reflexivity. }
  destruct Hmain as (items & Hitems & Hm).
  exists items. split; [exact Hitems|]. split; [exact Hm|].
  rewrite Hm.
  split; intros H; apply jump_not_number in H; destruct H; congruence.
Qed.

Lemma jumpers_off_numbers_only_witness :
  (pageSize jumperlessProps (mount jumperlessProps) <> 0
   /\ showPrevNextJumpers jumperlessProps = false)
  /\ exists items,
       pagerList jumperlessProps (mount jumperlessProps) = Some items
       /\ markers items =
          [Number 1; Number 23; Number 24; Number 25; Number 26; Number 27;
           Number 50].
Proof.
  assert (H1 : pageSize jumperlessProps (mount jumperlessProps) <> 0)
    by discriminate.
  split; [split; [exact H1 | reflexivity]|].
  destruct (jumpers_off_numbers_only jumperlessProps (mount jumperlessProps)
              H1 eq_refl) as (items & Hitems & Hm & _).
  exists items. split; [exact Hitems|].
  rewrite Hm. injection Hitems as <-. reflexivity.
Defined.

(** ** A single page *)

(** X20: for a page size of at least 1, [total <= pageSize] says that
    there is at most one page: the component returns [null] exactly when
    [hideOnSinglePage] is set and [allPages <= 1], and what it renders
    hands [handleChange] to the quick jumper exactly when [showQuickJumper]
    is set and there are at least two pages. *)
Theorem single_page_controls (props : Props.t) (st : HookState) :
  1 <= pageSize props st ->
  (Pagination props st = ReturnsNull <->
   hideOnSinglePage props = true /\ allPages props st <= 1)
  /\ (forall ul, Pagination props st = Renders ul ->
      (quickGo ul = true <->
       showQuickJumper props = true /\ 2 <= allPages props st)).
Proof.
  intros Hps.
  destruct (PageMath.calculatePage_bracket None (pageSize props st)
              (total props)) as [Hlo Hhi]; [simpl; lia|].
  simpl in Hlo, Hhi. fold (allPages props st) in Hlo, Hhi.
  assert (Hone : total props <= pageSize props st <-> allPages props st <= 1)
    by (split; intros H; nia).
  unfold Pagination.
  destruct (pagerList_total props st) as [items ->].
  split.
  - destruct (hideOnSinglePage props); cbn [andb].
    + destruct (Z.leb_spec (total props) (pageSize props st)) as [Hle|Hgt].
      * split; [intros _; split; [reflexivity | apply Hone; exact Hle]
               | reflexivity].
      * split; [discriminate|]. intros [_ H1]. apply Hone in H1. lia.
    + split; [discriminate | intros [H _]; discriminate H].
  - intros ul Hul.
    destruct (hideOnSinglePage props && _); [discriminate|].
    injection Hul as <-. cbn [quickGo]. unfold shouldDisplayQuickJumper.
    destruct (Z.gtb_spec (total props) (pageSize props st)) as [Hgt|Hle].
    + split; [intros H; split; [exact H|] | intros [H _]; exact H].
      destruct (Z.le_gt_cases (allPages props st) 1) as [H1|H1]; [|lia].
      apply Hone in H1. lia.
    + split; [discriminate|]. intros [_ H2]. apply Hone in Hle. lia.
Qed.

Lemma single_page_controls_witness :
  1 <= pageSize Scenario.C (mount Scenario.C)
  /\ Pagination Scenario.C (mount Scenario.C) <> ReturnsNull.
Proof.
  assert (H1 : 1 <= pageSize Scenario.C (mount Scenario.C)) by discriminate.
  split; [exact H1|].
  destruct (single_page_controls Scenario.C (mount Scenario.C) H1)
    as [Hnull _].
  intros H. apply Hnull in H. destruct H as [H _]. discriminate H.
Defined.

(** ** The quick-jump input *)

(** X21: in an uncontrolled component that has items, is not disabled and
    stands on a page of at least 1, a text that [Number] reads as [n]
    gives the value [min (n, allPages)], and [handleChange] of that value
    leaves the next render on the page of [1 .. allPages] nearest to [n];
    a text that is not a number gives the pending value back, and when
    that is the current page [handleChange] of it does nothing. *)
Theorem quick_jump_value (Number : string -> option Z) (props : Props.t)
  (st : HookState) (text : string) :
  text <> ""%string ->
  currentProp props = None ->
  1 <= pageSize props st -> 0 < total props -> disabled props = false ->
  1 <= current props st ->
  match Number text with
  | Some n =>
      exists v,
        getValidValue props st Number text = Some v
        /\ v = Z.min n (allPages props st)
        /\ current props
             (fst (dispatch props st (fst (handleChange props st v))))
           = Z.max 1 (Z.min n (allPages props st))
  | None =>
      getValidValue props st Number text = Some (internalInputVal st)
      /\ (internalInputVal st = current props st ->
          dispatch props st
            (fst (handleChange props st (internalInputVal st))) = (st, []))
  end.
Proof.
  intros Htext Hun Hps Ht Hd Hcur.
  assert (Hne : String.eqb text "" = false)
    by (apply String.eqb_neq; exact Htext).
  unfold getValidValue. rewrite Hne. fold (allPages props st).
  destruct (Number text) as [n|].
  - exists (Z.min n (allPages props st)). split; [|split; [reflexivity|]].
    + destruct (Z.geb_spec n (allPages props st)); f_equal; lia.
    + rewrite current_after_handleChange by assumption. lia.
  - split; [reflexivity|].
    intros Hsame. apply dispatch_handleChange_invalid. left. exact Hsame.
Qed.

Lemma quick_jump_value_witness :
  ("60"%string <> ""%string
   /\ currentProp Scenario.B = None
   /\ 1 <= pageSize Scenario.B (mount Scenario.B)
   /\ 0 < total Scenario.B /\ disabled Scenario.B = false
   /\ 1 <= current Scenario.B (mount Scenario.B))
  /\ getValidValue Scenario.B (mount Scenario.B) (fun _ => Some 60) "60"
     = Some 50.
Proof.
  assert (H0 : "60"%string <> ""%string) by discriminate.
  assert (H1 : 1 <= pageSize Scenario.B (mount Scenario.B)) by discriminate.
  assert (H2 : 0 < total Scenario.B) by reflexivity.
  assert (H3 : 1 <= current Scenario.B (mount Scenario.B)) by discriminate.
  split; [repeat split; assumption|].
  destruct (quick_jump_value (fun _ => Some 60) Scenario.B
              (mount Scenario.B) "60" H0 eq_refl H1 H2 eq_refl H3)
    as (v & Hv & Hmin & _).
  rewrite Hv, Hmin. reflexivity.
Defined.

(** ** What the handlers keep *)

Lemma settled_after_handleChange (props : Props.t) (st : HookState)
  (page : Z) :
  currentProp props = None ->
  1 <= pageSize props st -> 0 < total props ->
  settled props st ->
  settled props (fst (dispatch props st (fst (handleChange props st page)))).
Proof.
  intros Hun Hps Ht Hset.
  destruct (Z.eq_dec page (current props st)) as [He|Hne];
    [rewrite dispatch_handleChange_invalid by auto; exact Hset|].
  destruct (disabled props) eqn:Hd;
    [rewrite dispatch_handleChange_invalid by auto; exact Hset|].
  pose proof (allPages_positive props st Hps Ht) as Hall.
  rewrite dispatch_handleChange_valid by assumption.
  unfold settled. rewrite (current_after props st) by reflexivity.
  rewrite Hun. cbn [mergedValue innerCurrent internalInputVal].
  rewrite newPageOf_clamp by assumption. lia.
Qed.

(** X22: in an uncontrolled component with items and a page size of at
    least 1 whose hooks are settled on the page shown, they are settled
    again after [handleChange] of any page and after the previous, next
    and jump handlers. *)
Theorem page_handlers_keep_settled (props : Props.t) (st : HookState) :
  currentProp props = None ->
  1 <= pageSize props st -> 0 < total props ->
  settled props st ->
  (forall page,
      settled props
        (fst (dispatch props st (fst (handleChange props st page)))))
  /\ settled props (fst (dispatch props st (prevHandle props st)))
  /\ settled props (fst (dispatch props st (nextHandle props st)))
  /\ settled props (fst (dispatch props st (jumpPrevHandle props st)))
  /\ settled props (fst (dispatch props st (jumpNextHandle props st))).
Proof.
  intros Hun Hps Ht Hset.
  assert (Hhc : forall page,
             settled props
               (fst (dispatch props st (fst (handleChange props st page)))))
    by (intros page; apply settled_after_handleChange; assumption).
  split; [exact Hhc|].
  unfold prevHandle, nextHandle, jumpPrevHandle, jumpNextHandle.
  repeat split; try apply Hhc.
  - destruct (hasPrev props st); [apply Hhc | exact (proj1 Hset)].
  - destruct (hasPrev props st); [apply Hhc | exact (proj1 (proj2 Hset))].
  - destruct (hasPrev props st); [apply Hhc | exact (proj2 (proj2 Hset))].
  - destruct (hasNext props st); [apply Hhc | exact (proj1 Hset)].
  - destruct (hasNext props st); [apply Hhc | exact (proj1 (proj2 Hset))].
  - destruct (hasNext props st); [apply Hhc | exact (proj2 (proj2 Hset))].
Qed.

Lemma page_handlers_keep_settled_witness :
  (currentProp Scenario.B = None
   /\ 1 <= pageSize Scenario.B (mount Scenario.B)
   /\ 0 < total Scenario.B
   /\ settled Scenario.B (mount Scenario.B))
  /\ settled Scenario.B
       (fst (dispatch Scenario.B (mount Scenario.B)
               (nextHandle Scenario.B (mount Scenario.B)))).
Proof.
  assert (H1 : 1 <= pageSize Scenario.B (mount Scenario.B)) by discriminate.
  assert (H2 : 0 < total Scenario.B) by reflexivity.
  assert (H3 : settled Scenario.B (mount Scenario.B))
    by (repeat split; discriminate).
  split; [repeat split; solve [assumption | apply H3]|].
  destruct (page_handlers_keep_settled Scenario.B (mount Scenario.B)
              eq_refl H1 H2 H3) as (_ & _ & Hnext & _).
  exact Hnext.
Defined.

(** X23: [changePageSize] never writes the [current] cell; with an
    uncontrolled page size, changing the size and then changing it back
    restores the page size, the page count and the page shown. *)
Theorem changePageSize_there_and_back (props : Props.t) (st : HookState)
  (size : Z) :
  pageSizeProp props = None ->
  let st1 := fst (dispatch props st (changePageSize props st size)) in
  let st2 :=
    fst (dispatch props st1 (changePageSize props st1 (pageSize props st))) in
  innerCurrent st1 = innerCurrent st
  /\ innerCurrent st2 = innerCurrent st
  /\ pageSize props st1 = size
  /\ pageSize props st2 = pageSize props st
  /\ allPages props st2 = allPages props st
  /\ current props st2 = current props st.
Proof.
  intros Hun. cbv zeta.
  assert (Hps : forall x, pageSize props x = innerPageSize x)
    by (intros x; unfold pageSize, useMergedState; rewrite Hun; reflexivity).
  assert (Hall : forall x y, innerPageSize x = innerPageSize y ->
                             allPages props x = allPages props y)
    by (intros x y H; unfold allPages; rewrite !Hps, H; reflexivity).
  set (st1 := fst (dispatch props st (changePageSize props st size))).
  set (st2 := fst (dispatch props st1 (changePageSize props st1
                                         (pageSize props st)))).
  assert (H1 : innerCurrent st1 = innerCurrent st) by reflexivity.
  assert (H2 : innerCurrent st2 = innerCurrent st) by reflexivity.
  assert (Hs1 : innerPageSize st1 = size) by reflexivity.
  assert (Hs2 : innerPageSize st2 = innerPageSize st)
    by (unfold st2; cbn; apply Hps).
  split; [exact H1|]. split; [exact H2|].
  split; [rewrite Hps; exact Hs1|].
  split; [rewrite !Hps; exact Hs2|].
  split; [apply Hall; exact Hs2|].
  rewrite !current_is_min, H2, (Hall st2 st Hs2). reflexivity.
Qed.

Lemma changePageSize_there_and_back_witness :
  pageSizeProp Scenario.D = None
  /\ current Scenario.D
       (fst (dispatch Scenario.D
               (fst (dispatch Scenario.D (mount Scenario.D)
                       (changePageSize Scenario.D (mount Scenario.D) 20)))
               (changePageSize Scenario.D
                  (fst (dispatch Scenario.D (mount Scenario.D)
                          (changePageSize Scenario.D (mount Scenario.D) 20)))
                  (pageSize Scenario.D (mount Scenario.D))))) = 50.
Proof.
  split; [reflexivity|].
  destruct (changePageSize_there_and_back Scenario.D (mount Scenario.D) 20
              eq_refl) as (_ & _ & _ & _ & _ & Hcur).
  rewrite Hcur. reflexivity.
Defined.

(** X24: when the component mounts, the quick-jump input holds the current
    page, whatever is supplied; and when the requested page (the [current]
    prop, else [defaultCurrent], else 1) is a page of the list, the hooks
    are settled on it. *)
Theorem mount_input_holds_current (props : Props.t) :
  internalInputVal (mount props) = current props (mount props)
  /\ (1 <= mergedValue (currentProp props) (innerCurrent (mount props))
        <= allPages props (mount props) ->
      settled props (mount props)
      /\ current props (mount props) =
         orDefault (orDefault 1 (Props.defaultCurrent props))
           (Props.current props)).
Proof.
  assert (Hps : pageSize props (mount props) = innerPageSize (mount props)).
  { unfold pageSize, useMergedState, mergedValue, mount, useMergedStateInit.
    cbn [innerPageSize]. destruct (pageSizeProp props); reflexivity. }
  assert (Hm : mergedValue (currentProp props) (innerCurrent (mount props))
               = innerCurrent (mount props)).
  { unfold mergedValue, mount, useMergedStateInit. cbn [innerCurrent].
    destruct (currentProp props); reflexivity. }
  assert (Hin : internalInputVal (mount props) = current props (mount props)).
  { rewrite current_is_min, Hm. unfold allPages. rewrite Hps. reflexivity. }
  split; [exact Hin|].
  intros Hrange. rewrite Hm in Hrange.
  assert (Hcur : current props (mount props) = innerCurrent (mount props))
    by (rewrite current_is_min, Hm; lia).
  split.
  - unfold settled. rewrite Hin, Hcur. repeat split; lia.
  - rewrite Hcur. unfold mount, useMergedStateInit, currentProp,
      defaultCurrent. cbn [innerCurrent orDefault].
    destruct (Props.current props); reflexivity.
Qed.
